(** * The Oanda gateway ([server.py]): request handlers and error mapping

    A shallow embedding of the FastAPI application of [server.py].

    - Part 1 models the Python values the handlers manipulate (decoded JSON)
      and the built-ins they call: truthiness, [str], [int], [float], [len],
      subscripting and [dict.get].
    - Part 2 models the effects: the broker client ([oanda_client.request]),
      the error log, exceptions and [try]/[except].
    - Part 3 transcribes the handlers, one definition per route.
    - Part 4 states and proves the properties of the gateway, for any
      configuration and any broker.
    - Part 5 instantiates them at sample requests and brokers.

    Strings are sequences of code points below 256, one [ascii] per code
    point.  Floats are IEEE-754 binary64 values in the representation of
    [SpecFloat]; conversions and arithmetic on them round to nearest, ties
    to even.  The texts of built-in errors are those of CPython 3.11. *)

From Stdlib Require Import ZArith List String Ascii Bool Lia DecimalString.
From Stdlib Require Import Floats.SpecFloat.
Import ListNotations.
Local Open Scope string_scope.
Local Open Scope Z_scope.

(* ================================================================== *)
(** * Part 1: Python values and built-ins *)
(* ================================================================== *)

(** ** Values *)

#[local] Set Warnings "-register-all".

(** A decoded JSON document, as [json.loads] produces it.  A [dict] keeps
    its insertion order; lookup takes the first entry for a key. *)
Inductive pyval : Type :=
| PNone
| PBool (b : bool)
| PInt (n : Z)
| PFloat (x : spec_float)
| PStr (s : string)
| PList (items : list pyval)
| PDict (entries : list (string * pyval)).

Definition dict : Type := list (string * pyval).

Fixpoint dict_lookup (k : string) (d : dict) : option pyval :=
  match d with
  | [] => None
  | (k', v) :: d' => if String.eqb k k' then Some v else dict_lookup k d'
  end.

(** [d[k] = v]: replaces the value in place, or appends a new entry. *)
Fixpoint dict_set (k : string) (v : pyval) (d : dict) : dict :=
  match d with
  | [] => [(k, v)]
  | (k', v') :: d' =>
      if String.eqb k k' then (k, v) :: d' else (k', v') :: dict_set k v d'
  end.

(** [k in d] *)
Definition dict_mem (k : string) (d : dict) : bool :=
  match dict_lookup k d with Some _ => true | None => false end.

(** ** Exceptions *)

(** [HTTPException] is FastAPI's, [V20Error] the broker library's; every
    other exception is kept as its class name and the text [str(e)]. *)
Inductive exn : Type :=
| HTTPException (status_code : Z) (detail : string)
| V20Error (code : Z) (msg : string)
| PyError (cls : string) (text : string).

Inductive outcome (A : Type) : Type :=
| Return (a : A)
| Raise (e : exn).
Arguments Return {A} a.
Arguments Raise {A} e.

Definition ValueError {A} (text : string) : outcome A := Raise (PyError "ValueError" text).
Definition TypeError {A} (text : string) : outcome A := Raise (PyError "TypeError" text).
Definition KeyError {A} (text : string) : outcome A := Raise (PyError "KeyError" text).
Definition IndexError {A} (text : string) : outcome A := Raise (PyError "IndexError" text).
Definition AttributeError {A} (text : string) : outcome A := Raise (PyError "AttributeError" text).
Definition OverflowError {A} (text : string) : outcome A := Raise (PyError "OverflowError" text).

(** ** Characters and decimal numerals *)

Definition ord (c : ascii) : Z := Z.of_N (N_of_ascii c).
Definition chr (n : Z) : ascii := ascii_of_N (Z.to_N n).
Definition str1 (c : ascii) : string := String c EmptyString.

Definition backslash : ascii := chr 92.
Definition squote : ascii := chr 39.
Definition dquote : ascii := chr 34.

(** [str(n)] for an [int]. *)
Definition string_of_Z (n : Z) : string := NilZero.string_of_int (Z.to_int n).

Definition hex_digit (n : Z) : ascii :=
  if n <? 10 then chr (48 + n) else chr (87 + n).

Definition hex2 (n : Z) : string :=
  String (hex_digit (n / 16)) (str1 (hex_digit (n mod 16))).

(** The characters [int] and [float] strip from both ends of a string. *)
Definition is_space (c : ascii) : bool :=
  let n := ord c in
  ((9 <=? n) && (n <=? 13)) || (n =? 32) || (n =? 133) || (n =? 160).

Definition digit_of (c : ascii) : option Z :=
  let n := ord c in
  if (48 <=? n) && (n <=? 57) then Some (n - 48) else None.

Fixpoint lstrip (l : list ascii) : list ascii :=
  match l with
  | c :: l' => if is_space c then lstrip l' else l
  | [] => []
  end.

Definition strip (l : list ascii) : list ascii := rev (lstrip (rev (lstrip l))).

(** Digits after the first one of a numeral: a single underscore may
    separate two digits. *)
Fixpoint read_digits_tail (l : list ascii) : list Z * list ascii :=
  match l with
  | c :: l' =>
      match digit_of c with
      | Some d => let '(ds, r) := read_digits_tail l' in (d :: ds, r)
      | None =>
          if Ascii.eqb c "_" then
            match l' with
            | c' :: l'' =>
                match digit_of c' with
                | Some d => let '(ds, r) := read_digits_tail l'' in (d :: ds, r)
                | None => ([], l)
                end
            | [] => ([], l)
            end
          else ([], l)
      end
  | [] => ([], [])
  end.

(** A numeral [digit (_? digit)*] at the head of [l], with what follows it. *)
Definition read_digits (l : list ascii) : option (list Z * list ascii) :=
  match l with
  | c :: _ =>
      match digit_of c with
      | Some _ => Some (read_digits_tail l)
      | None => None
      end
  | [] => None
  end.

Definition Z_of_digits (ds : list Z) : Z :=
  fold_left (fun acc d => 10 * acc + d) ds 0.

Definition read_sign (l : list ascii) : bool * list ascii :=
  match l with
  | c :: r =>
      if Ascii.eqb c "-" then (true, r)
      else if Ascii.eqb c "+" then (false, r)
      else (false, l)
  | [] => (false, l)
  end.

(** ** [repr] of a string *)

Definition contains (c : ascii) (s : string) : bool :=
  existsb (Ascii.eqb c) (list_ascii_of_string s).

Definition printable (n : Z) : bool :=
  negb ((n <? 32) || ((127 <=? n) && (n <=? 160)) || (n =? 173)).

Definition repr_char (quote c : ascii) : string :=
  let n := ord c in
  if Ascii.eqb c quote || Ascii.eqb c backslash then String backslash (str1 c)
  else if n =? 9 then String backslash "t"
  else if n =? 10 then String backslash "n"
  else if n =? 13 then String backslash "r"
  else if printable n then str1 c
  else String backslash ("x" ++ hex2 n).

Definition repr_str (s : string) : string :=
  let quote := if contains squote s && negb (contains dquote s) then dquote else squote in
  str1 quote ++ String.concat "" (map (repr_char quote) (list_ascii_of_string s)) ++ str1 quote.

(** ** Binary64 floats *)

Definition prec : Z := 53.
Definition emax : Z := 1024.

Definition float_zero : spec_float := S754_zero false.
Definition float_sub : spec_float -> spec_float -> spec_float := SFsub prec emax.

(** The float nearest to [(-1)^neg * num / den], ties to even; [num] and
    [den] are positive. *)
Definition float_of_ratio (neg : bool) (num den : Z) : spec_float :=
  let '(m, e, l) := SFdiv_core_binary prec emax num 0 den 0 in
  binary_round_aux prec emax neg m e l.

(** The float nearest to [(-1)^neg * n * 10^e], for [0 <= n]. *)
Definition float_of_decimal (neg : bool) (n e : Z) : spec_float :=
  if n =? 0 then S754_zero neg
  else if 0 <=? e then float_of_ratio neg (n * 10 ^ e) 1
  else float_of_ratio neg n (10 ^ (- e)).

Definition lower (c : ascii) : ascii :=
  let n := ord c in
  if (65 <=? n) && (n <=? 90) then chr (n + 32) else c.

(** The exponent part of a float literal: nothing, or [e], a sign and a
    numeral, up to the end of the string. *)
Definition read_exponent (l : list ascii) : option Z :=
  match l with
  | [] => Some 0
  | c :: r =>
      if Ascii.eqb (lower c) "e" then
        let '(neg, r') := read_sign r in
        match read_digits r' with
        | Some (ds, []) => Some (if neg then - Z_of_digits ds else Z_of_digits ds)
        | _ => None
        end
      else None
  end.

(** Integer digits, fraction digits and exponent of a decimal literal. *)
Definition read_decimal (l : list ascii) : option (list Z * list Z * Z) :=
  match read_digits l with
  | Some (ip, r1) =>
      match r1 with
      | c :: r2 =>
          if Ascii.eqb c "." then
            match read_digits r2 with
            | Some (fp, r3) => option_map (fun e => (ip, fp, e)) (read_exponent r3)
            | None => option_map (fun e => (ip, [], e)) (read_exponent r2)
            end
          else option_map (fun e => (ip, [], e)) (read_exponent r1)
      | [] => Some (ip, [], 0)
      end
  | None =>
      match l with
      | c :: r2 =>
          if Ascii.eqb c "." then
            match read_digits r2 with
            | Some (fp, r3) => option_map (fun e => ([], fp, e)) (read_exponent r3)
            | None => None
            end
          else None
      | [] => None
      end
  end.

(** [float(s)] for a string: surrounding white space, a sign, then
    [inf], [infinity], [nan] in any case or a decimal literal, rounded to
    the nearest float. *)
Definition float_of_string (s : string) : option spec_float :=
  let '(neg, l) := read_sign (strip (list_ascii_of_string s)) in
  let word := string_of_list_ascii (map lower l) in
  if String.eqb word "inf" || String.eqb word "infinity" then Some (S754_infinity neg)
  else if String.eqb word "nan" then Some S754_nan
  else
    match read_decimal l with
    | Some (ip, fp, e) =>
        Some (float_of_decimal neg (Z_of_digits (ip ++ fp)%list) (e - Z.of_nat (List.length fp)))
    | None => None
    end.

(** [float(n)] for an [int]: nearest float, or [None] when it overflows. *)
Definition float_of_Z (n : Z) : option spec_float :=
  match binary_normalize prec emax n 0 false with
  | S754_infinity _ => None
  | x => Some x
  end.

(** *** [repr] of a float: the shortest decimal that reads back as it *)

(** Looks, from position [k] downwards, for the coarsest decimal position
    at which a multiple of [10^k] rounds to [x = xn/d]; the interval of
    such numbers is [lo/d] to [hi/d], its ends included when [closed].
    Returns the multiple nearest [x] and its position. *)
Fixpoint shortest_from (fuel : nat) (xn lo hi d : Z) (closed : bool) (k : Z)
  : Z * Z :=
  match fuel with
  | O => (0, k)
  | S fuel' =>
      let p := if 0 <=? k then 10 ^ k else 1 in
      let q := if 0 <=? k then 1 else 10 ^ (- k) in
      let u := p * d in
      let c := (xn * q) / u in
      let r := (xn * q) mod u in
      let inside (c : Z) :=
        (0 <? c) &&
        (if closed then (lo * q <=? c * u) && (c * u <=? hi * q)
         else (lo * q <? c * u) && (c * u <? hi * q)) in
      let up := (u <? 2 * r) || ((u =? 2 * r) && Z.odd c) in
      if inside c && inside (c + 1) then (if up then c + 1 else c, k)
      else if inside c then (c, k)
      else if inside (c + 1) then (c + 1, k)
      else shortest_from fuel' xn lo hi d closed (k - 1)
  end.

(** Shortest digits of the positive float [m * 2^e], as an integer [c] and
    a decimal exponent [k]: the float prints as [c * 10^k].  The search
    starts at [k0], above the decimal logarithm of the float, and for a
    binary64 float ends within the 17 digits that always suffice. *)
Definition shortest_digits (m : positive) (e : Z) : Z * Z :=
  let below := if (Zpos m =? 2 ^ (prec - 1)) && (3 - emax - prec <? e) then 1 else 2 in
  let s := e - 2 in
  let scale := if 0 <=? s then 2 ^ s else 1 in
  let d := if 0 <=? s then 1 else 2 ^ (- s) in
  let xn := 4 * Zpos m * scale in
  let lo := (4 * Zpos m - below) * scale in
  let hi := (4 * Zpos m + 2) * scale in
  let l2 := Z.log2 xn - Z.log2 d in
  let k0 := (if 0 <=? l2 then (l2 + 1) * 30103 else (l2 + 1) * 30102) / 100000 + 2 in
  shortest_from (Z.to_nat (Z.log2 (Zpos m) + 12)) xn lo hi d (Z.even (Zpos m)) k0.

Definition zeros (n : Z) : string :=
  string_of_list_ascii (repeat "0"%char (Z.to_nat n)).

Definition repr_finite (m : positive) (e : Z) : string :=
  let '(c, k) := shortest_digits m e in
  let ds := string_of_Z c in
  let n := Z.of_nat (String.length ds) in
  let decpt := n + k in
  if (decpt <=? -4) || (16 <? decpt) then
    let x := decpt - 1 in
    let mant := if n =? 1 then ds
                else substring 0 1 ds ++ "." ++ substring 1 (Z.to_nat (n - 1)) ds in
    let xs := string_of_Z (Z.abs x) in
    mant ++ "e" ++ (if x <? 0 then "-" else "+") ++ (if Z.abs x <? 10 then "0" else "") ++ xs
  else if decpt <=? 0 then "0." ++ zeros (- decpt) ++ ds
  else if n <=? decpt then ds ++ zeros (decpt - n) ++ ".0"
  else substring 0 (Z.to_nat decpt) ds ++ "." ++ substring (Z.to_nat decpt) (Z.to_nat (n - decpt)) ds.

Definition repr_float (x : spec_float) : string :=
  match x with
  | S754_zero s => if s then "-0.0" else "0.0"
  | S754_infinity s => if s then "-inf" else "inf"
  | S754_nan => "nan"
  | S754_finite s m e => (if s then "-" else "") ++ repr_finite m e
  end.

(** ** Built-ins on values *)

Definition type_name (v : pyval) : string :=
  match v with
  | PNone => "NoneType"
  | PBool _ => "bool"
  | PInt _ => "int"
  | PFloat _ => "float"
  | PStr _ => "str"
  | PList _ => "list"
  | PDict _ => "dict"
  end.

(** [bool(v)], the test of [if v:] and [if not v:]. *)
Definition truthy (v : pyval) : bool :=
  match v with
  | PNone => false
  | PBool b => b
  | PInt n => negb (n =? 0)
  | PFloat x => negb (SFeqb x float_zero)
  | PStr s => negb (String.eqb s "")
  | PList items => match items with [] => false | _ => true end
  | PDict entries => match entries with [] => false | _ => true end
  end.

Fixpoint py_repr (v : pyval) : string :=
  match v with
  | PNone => "None"
  | PBool b => if b then "True" else "False"
  | PInt n => string_of_Z n
  | PFloat x => repr_float x
  | PStr s => repr_str s
  | PList items => "[" ++ String.concat ", " (map py_repr items) ++ "]"
  | PDict entries =>
      "{" ++ String.concat ", "
               (map (fun '(k, w) => repr_str k ++ ": " ++ py_repr w) entries) ++ "}"
  end.

(** [str(v)] *)
Definition py_str (v : pyval) : string :=
  match v with
  | PStr s => s
  | _ => py_repr v
  end.

(** The longest decimal numeral [int] converts. *)
Definition int_max_str_digits : Z := 4300.

(** [int(s)] for a string, in base 10.  A misplaced underscore is reported
    before the length of the numeral is checked, other trailing characters
    after it; the message quotes at most 200 characters. *)
Definition py_int (s : string) : outcome Z :=
  let invalid := ValueError ("invalid literal for int() with base 10: "
                             ++ substring 0 200 (repr_str s)) in
  let '(neg, l) := read_sign (strip (list_ascii_of_string s)) in
  match read_digits l with
  | Some (ds, r) =>
      let n := Z.of_nat (List.length ds) in
      if match r with c :: _ => Ascii.eqb c "_" | [] => false end then invalid
      else if int_max_str_digits <? n then
        ValueError ("Exceeds the limit (" ++ string_of_Z int_max_str_digits
                    ++ " digits) for integer string conversion: value has "
                    ++ string_of_Z n
                    ++ " digits; use sys.set_int_max_str_digits() to increase the limit")
      else
        match r with
        | [] => Return (if neg then - Z_of_digits ds else Z_of_digits ds)
        | _ => invalid
        end
  | None => invalid
  end.

(** [float(v)] *)
Definition py_float (v : pyval) : outcome spec_float :=
  match v with
  | PFloat x => Return x
  | PInt n =>
      match float_of_Z n with
      | Some x => Return x
      | None => OverflowError "int too large to convert to float"
      end
  | PBool b => Return (if b then SFone prec emax else float_zero)
  | PStr s =>
      match float_of_string s with
      | Some x => Return x
      | None => ValueError ("could not convert string to float: " ++ repr_str s)
      end
  | _ => TypeError ("float() argument must be a string or a real number, not "
                    ++ repr_str (type_name v))
  end.

(** [len(v)] *)
Definition py_len (v : pyval) : outcome Z :=
  match v with
  | PStr s => Return (Z.of_nat (String.length s))
  | PList items => Return (Z.of_nat (List.length items))
  | PDict entries => Return (Z.of_nat (List.length entries))
  | _ => TypeError ("object of type " ++ repr_str (type_name v) ++ " has no len()")
  end.

(** [v[k]] with a string [k] *)
Definition getitem (v : pyval) (k : string) : outcome pyval :=
  match v with
  | PDict entries =>
      match dict_lookup k entries with
      | Some w => Return w
      | None => KeyError (repr_str k)
      end
  | PList _ => TypeError "list indices must be integers or slices, not str"
  | PStr _ => TypeError "string indices must be integers, not 'str'"
  | _ => TypeError (repr_str (type_name v) ++ " object is not subscriptable")
  end.

(** [v[0]] *)
Definition getitem0 (v : pyval) : outcome pyval :=
  match v with
  | PList items =>
      match items with
      | w :: _ => Return w
      | [] => IndexError "list index out of range"
      end
  | PStr s =>
      match s with
      | String c _ => Return (PStr (str1 c))
      | EmptyString => IndexError "string index out of range"
      end
  | PDict _ => KeyError "0"
  | _ => TypeError (repr_str (type_name v) ++ " object is not subscriptable")
  end.

(** [v.get(k, default)] *)
Definition get (v : pyval) (k : string) (default : pyval) : outcome pyval :=
  match v with
  | PDict entries =>
      match dict_lookup k entries with
      | Some w => Return w
      | None => Return default
      end
  | _ => AttributeError (repr_str (type_name v) ++ " object has no attribute 'get'")
  end.

(** [json.dumps(v, allow_nan=False)] succeeds: no float in [v] is infinite
    or a NaN. *)
Fixpoint json_compliant (v : pyval) : bool :=
  match v with
  | PFloat (S754_infinity _) | PFloat S754_nan => false
  | PList items => forallb json_compliant items
  | PDict entries => forallb (fun '(_, w) => json_compliant w) entries
  | _ => true
  end.

(** [d.get(k)], which is [None] for a missing key. *)
Definition dict_get (d : dict) (k : string) : pyval :=
  match dict_lookup k d with Some v => v | None => PNone end.

(** [d[k1][k2] = v], where [d[k1]] is a dict. *)
Definition dict_set_in (k1 k2 : string) (v : pyval) (d : dict) : dict :=
  match dict_lookup k1 d with
  | Some (PDict inner) => dict_set k1 (PDict (dict_set k2 v inner)) d
  | _ => d
  end.

(* ================================================================== *)
(** * Part 2: effects *)
(* ================================================================== *)

(** The request objects of the broker library that the gateway builds. *)
Inductive endpoint : Type :=
| AccountDetails (accountID : string)
| OpenPositions (accountID : string)
| OrderList (accountID : string)
| PricingInfo (accountID : string) (params : pyval)
| InstrumentsCandles (instrument : string) (params : pyval)
| OrderCreate (accountID : string) (data : pyval)
| OrderCancel (accountID : string) (orderID : string)
| PositionClose (accountID : string) (instrument : string) (data : pyval).

(** What a handler leaves behind: the requests it sent to the broker and
    the lines it logged, oldest first. *)
Record world : Type := { calls : list endpoint; logged : list string }.

Definition add_call (r : endpoint) (w : world) : world :=
  {| calls := calls w ++ [r]; logged := logged w |}.

Definition add_log (line : string) (w : world) : world :=
  {| calls := calls w; logged := logged w ++ [line] |}.

(** A computation that may raise and that acts on the world. *)
Definition M (A : Type) : Type := world -> outcome A * world.

Definition ret {A} (a : A) : M A := fun w => (Return a, w).

Definition raise {A} (e : exn) : M A := fun w => (Raise e, w).

Definition bind {A B} (m : M A) (k : A -> M B) : M B :=
  fun w =>
    match m w with
    | (Return a, w') => k a w'
    | (Raise e, w') => (Raise e, w')
    end.

(** [try: m except Exception as e: h e] *)
Definition catch {A} (m : M A) (h : exn -> M A) : M A :=
  fun w =>
    match m w with
    | (Return a, w') => (Return a, w')
    | (Raise e, w') => h e w'
    end.

(** A built-in that touches nothing. *)
Definition lift {A} (o : outcome A) : M A := fun w => (o, w).

Definition logger_error (line : string) : M unit := fun w => (Return tt, add_log line w).

Declare Scope gateway_scope.
Delimit Scope gateway_scope with gateway.
Notation "x <- m ;; k" := (bind m (fun x => k))
  (at level 100, m at next level, right associativity) : gateway_scope.
Notation "m ;; k" := (bind m (fun _ => k))
  (at level 100, right associativity) : gateway_scope.
Local Open Scope gateway_scope.

(** An HTTP response: status code and JSON body. *)
Record response : Type := { status : Z; content : pyval }.

(** The requests the application routes, with the path, query and body
    parameters FastAPI hands to the handler; [None] is an omitted query
    parameter. *)
Inductive request : Type :=
| GetRoot
| GetHealth
| GetAccount
| GetPositions
| GetOrders
| GetPrice (instrument : string)
| GetHistorical (instrument : string) (granularity : option string) (count : option Z)
| PostOrderMarket (order_request : dict)
| PostOrderLimit (order_request : dict)
| DeleteOrder (order_id : string)
| PostPositionClose (instrument : string) (units : option string).

(* ================================================================== *)
(** * Part 3: the handlers *)
(* ================================================================== *)

Section Gateway.

(** Configuration read from the environment at start-up. *)
Variable OANDA_ACCOUNT_ID : string.
Variable OANDA_ENVIRONMENT : string.

(** [oanda_client.request(r)]: the broker answers with [r.response] or
    raises. *)
Variable oanda_client : endpoint -> outcome pyval.

(** [datetime.now().isoformat()] *)
Variable now : string.

(** [str(e)] for an [HTTPException], which the web framework defines. *)
Variable str_HTTPException : Z -> string -> string.

Definition exn_str (e : exn) : string :=
  match e with
  | HTTPException status_code detail => str_HTTPException status_code detail
  | V20Error _ msg => msg
  | PyError _ text => text
  end.

Definition request_broker (r : endpoint) : M pyval :=
  fun w => (oanda_client r, add_call r w).

(** The two [except] clauses every handler but the probes ends with;
    [fn] is the handler's name in the log line. *)
Definition guarded (fn : string) (body : M pyval) : M pyval :=
  catch body (fun e =>
    match e with
    | V20Error _ _ =>
        logger_error ("Oanda API error in " ++ fn ++ ": " ++ exn_str e) ;;
        raise (HTTPException 400 ("Oanda API error: " ++ exn_str e))
    | _ =>
        logger_error ("Unexpected error in " ++ fn ++ ": " ++ exn_str e) ;;
        raise (HTTPException 500 ("Internal error: " ++ exn_str e))
    end).

Definition success (data : pyval) : pyval :=
  PDict [("success", PBool true); ("data", data)].

Definition root : M pyval :=
  ret (PDict [("message", PStr "Oanda MCP Server is running!");
              ("environment", PStr OANDA_ENVIRONMENT);
              ("status", PStr "healthy");
              ("timestamp", PStr now)]).

Definition health_check : M pyval :=
  catch
    (_ <- request_broker (AccountDetails OANDA_ACCOUNT_ID) ;;
     ret (PDict [("status", PStr "healthy");
                 ("oanda_connection", PStr "ok");
                 ("account_id", PStr OANDA_ACCOUNT_ID);
                 ("environment", PStr OANDA_ENVIRONMENT)]))
    (fun e =>
     ret (PDict [("status", PStr "unhealthy");
                 ("error", PStr (exn_str e));
                 ("oanda_connection", PStr "failed")])).

Definition get_account_info_body : M pyval :=
  r_response <- request_broker (AccountDetails OANDA_ACCOUNT_ID) ;;
  account_info <- lift (getitem r_response "account") ;;
  id <- lift (getitem account_info "id") ;;
  currency <- lift (getitem account_info "currency") ;;
  balance <- lift (getitem account_info "balance") ;;
  nav <- lift (getitem account_info "NAV") ;;
  unrealized_pl <- lift (getitem account_info "unrealizedPL") ;;
  margin_used <- lift (getitem account_info "marginUsed") ;;
  margin_available <- lift (getitem account_info "marginAvailable") ;;
  margin_rate <- lift (getitem account_info "marginRate") ;;
  open_trade_count <- lift (getitem account_info "openTradeCount") ;;
  open_position_count <- lift (getitem account_info "openPositionCount") ;;
  pending_order_count <- lift (getitem account_info "pendingOrderCount") ;;
  ret (success (PDict [("id", id);
                       ("currency", currency);
                       ("balance", balance);
                       ("nav", nav);
                       ("unrealized_pl", unrealized_pl);
                       ("margin_used", margin_used);
                       ("margin_available", margin_available);
                       ("margin_rate", margin_rate);
                       ("open_trade_count", open_trade_count);
                       ("open_position_count", open_position_count);
                       ("pending_order_count", pending_order_count)])).

Definition get_account_info : M pyval :=
  guarded "get_account_info" get_account_info_body.

Definition get_positions_body : M pyval :=
  r_response <- request_broker (OpenPositions OANDA_ACCOUNT_ID) ;;
  positions_data <- lift (get r_response "positions" (PList [])) ;;
  count <- lift (py_len positions_data) ;;
  ret (PDict [("success", PBool true);
              ("data", positions_data);
              ("count", PInt count)]).

Definition get_positions : M pyval :=
  guarded "get_positions" get_positions_body.

Definition get_orders_body : M pyval :=
  r_response <- request_broker (OrderList OANDA_ACCOUNT_ID) ;;
  orders_data <- lift (get r_response "orders" (PList [])) ;;
  count <- lift (py_len orders_data) ;;
  ret (PDict [("success", PBool true);
              ("data", orders_data);
              ("count", PInt count)]).

Definition get_orders : M pyval :=
  guarded "get_orders" get_orders_body.

(** [price_data.get(side, [{}])[0].get('price', default)] *)
Definition quoted_price (price_data : pyval) (side : string) (default : pyval)
  : M pyval :=
  quotes <- lift (get price_data side (PList [PDict []])) ;;
  best <- lift (getitem0 quotes) ;;
  lift (get best "price" default).

Definition get_current_price_body (instrument : string) : M pyval :=
  let params := PDict [("instruments", PStr instrument)] in
  r_response <- request_broker (PricingInfo OANDA_ACCOUNT_ID params) ;;
  prices <- lift (get r_response "prices" (PList [])) ;;
  (if negb (truthy prices)
   then raise (HTTPException 404 ("No price data found for " ++ instrument))
   else ret tt) ;;
  price_data <- lift (getitem0 prices) ;;
  bid <- quoted_price price_data "bids" (PStr "N/A") ;;
  ask <- quoted_price price_data "asks" (PStr "N/A") ;;
  ask_price <- quoted_price price_data "asks" (PInt 0) ;;
  ask_float <- lift (py_float ask_price) ;;
  bid_price <- quoted_price price_data "bids" (PInt 0) ;;
  bid_float <- lift (py_float bid_price) ;;
  time <- lift (get price_data "time" PNone) ;;
  ret (success (PDict [("instrument", PStr instrument);
                       ("bid", bid);
                       ("ask", ask);
                       ("spread", PFloat (float_sub ask_float bid_float));
                       ("time", time)])).

Definition get_current_price (instrument : string) : M pyval :=
  guarded "get_current_price" (get_current_price_body instrument).

Definition get_historical_data_body (instrument granularity : string) (count : Z)
  : M pyval :=
  let params := PDict [("granularity", PStr granularity);
                       ("count", PInt (Z.min count 5000))] in
  r_response <- request_broker (InstrumentsCandles instrument params) ;;
  candles <- lift (get r_response "candles" (PList [])) ;;
  n <- lift (py_len candles) ;;
  ret (success (PDict [("instrument", PStr instrument);
                       ("granularity", PStr granularity);
                       ("candles", candles);
                       ("count", PInt n)])).

Definition get_historical_data (instrument granularity : string) (count : Z)
  : M pyval :=
  guarded "get_historical_data" (get_historical_data_body instrument granularity count).

(** [for field in required_fields: if field not in order_request: raise ...] *)
Fixpoint require_fields (required_fields : list string) (order_request : dict)
  : M unit :=
  match required_fields with
  | [] => ret tt
  | field :: rest =>
      if dict_mem field order_request
      then require_fields rest order_request
      else raise (HTTPException 400 ("Missing required field: " ++ field))
  end.

(** [if order_request.get(field): order_data["order"][key] = {"price": str(order_request[field])}] *)
Definition add_optional (order_request : dict) (field key : string)
           (order_data : dict) : M dict :=
  if truthy (dict_get order_request field) then
    value <- lift (getitem (PDict order_request) field) ;;
    ret (dict_set_in "order" key (PDict [("price", PStr (py_str value))]) order_data)
  else ret order_data.

Definition place_market_order_body (order_request : dict) : M pyval :=
  require_fields ["instrument"; "units"] order_request ;;
  instrument <- lift (getitem (PDict order_request) "instrument") ;;
  units <- lift (getitem (PDict order_request) "units") ;;
  let order_data :=
    [("order", PDict [("type", PStr "MARKET");
                      ("instrument", instrument);
                      ("units", PStr (py_str units))])] in
  order_data <- add_optional order_request "stop_loss" "stopLossOnFill" order_data ;;
  order_data <- add_optional order_request "take_profit" "takeProfitOnFill" order_data ;;
  r_response <- request_broker (OrderCreate OANDA_ACCOUNT_ID (PDict order_data)) ;;
  ret (success r_response).

Definition place_market_order (order_request : dict) : M pyval :=
  guarded "place_market_order" (place_market_order_body order_request).

Definition place_limit_order_body (order_request : dict) : M pyval :=
  require_fields ["instrument"; "units"; "price"] order_request ;;
  instrument <- lift (getitem (PDict order_request) "instrument") ;;
  units <- lift (getitem (PDict order_request) "units") ;;
  price <- lift (getitem (PDict order_request) "price") ;;
  let order_data :=
    [("order", PDict [("type", PStr "LIMIT");
                      ("instrument", instrument);
                      ("units", PStr (py_str units));
                      ("price", PStr (py_str price))])] in
  order_data <- add_optional order_request "stop_loss" "stopLossOnFill" order_data ;;
  order_data <- add_optional order_request "take_profit" "takeProfitOnFill" order_data ;;
  r_response <- request_broker (OrderCreate OANDA_ACCOUNT_ID (PDict order_data)) ;;
  ret (success r_response).

Definition place_limit_order (order_request : dict) : M pyval :=
  guarded "place_limit_order" (place_limit_order_body order_request).

Definition cancel_order_body (order_id : string) : M pyval :=
  r_response <- request_broker (OrderCancel OANDA_ACCOUNT_ID order_id) ;;
  ret (success r_response).

Definition cancel_order (order_id : string) : M pyval :=
  guarded "cancel_order" (cancel_order_body order_id).

(** The payload of a close request, from the [units] query parameter. *)
Definition close_data (units : string) : M dict :=
  if String.eqb units "ALL" then
    ret [("longUnits", PStr "ALL"); ("shortUnits", PStr "ALL")]
  else
    n <- lift (py_int units) ;;
    if 0 <? n then ret [("longUnits", PStr units)]
    else
      n' <- lift (py_int units) ;;
      ret [("shortUnits", PStr (string_of_Z (Z.abs n')))].

Definition close_position_body (instrument units : string) : M pyval :=
  data <- close_data units ;;
  r_response <- request_broker (PositionClose OANDA_ACCOUNT_ID instrument (PDict data)) ;;
  ret (success r_response).

Definition close_position (instrument units : string) : M pyval :=
  guarded "close_position" (close_position_body instrument units).

(** ** The application *)

Definition global_exception_handler (exc : exn) (w : world) : response * world :=
  ({| status := 500;
      content := PDict [("success", PBool false);
                        ("error", PStr "Internal server error");
                        ("detail", PStr (exn_str exc))] |},
   add_log ("Global exception: " ++ exn_str exc) w).

Definition default {A} (d : A) (o : option A) : A :=
  match o with Some a => a | None => d end.

(** The handler of a request, called with the defaults of its signature. *)
Definition route (rq : request) : M pyval :=
  match rq with
  | GetRoot => root
  | GetHealth => health_check
  | GetAccount => get_account_info
  | GetPositions => get_positions
  | GetOrders => get_orders
  | GetPrice instrument => get_current_price instrument
  | GetHistorical instrument granularity count =>
      get_historical_data instrument (default "D" granularity) (default 100 count)
  | PostOrderMarket order_request => place_market_order order_request
  | PostOrderLimit order_request => place_limit_order order_request
  | DeleteOrder order_id => cancel_order order_id
  | PostPositionClose instrument units =>
      close_position instrument (default "ALL" units)
  end.

(** What FastAPI answers.  A returned value is rendered as JSON with
    status 200; rendering raises when the value holds a float that JSON
    cannot express.  An [HTTPException] becomes its status and detail.
    Any other exception goes to the global handler. *)
Definition app (rq : request) (w : world) : response * world :=
  match route rq w with
  | (Return v, w') =>
      if json_compliant v then ({| status := 200; content := v |}, w')
      else global_exception_handler
             (PyError "ValueError" "Out of range float values are not JSON compliant") w'
  | (Raise (HTTPException status_code detail), w') =>
      ({| status := status_code; content := PDict [("detail", PStr detail)] |}, w')
  | (Raise e, w') => global_exception_handler e w'
  end.

(** The [try] block of a handler and the name it logs under; the two
    probes have none of this form. *)
Definition try_block (rq : request) : option (string * M pyval) :=
  match rq with
  | GetRoot | GetHealth => None
  | GetAccount => Some ("get_account_info", get_account_info_body)
  | GetPositions => Some ("get_positions", get_positions_body)
  | GetOrders => Some ("get_orders", get_orders_body)
  | GetPrice instrument =>
      Some ("get_current_price", get_current_price_body instrument)
  | GetHistorical instrument granularity count =>
      Some ("get_historical_data",
            get_historical_data_body instrument (default "D" granularity)
                                     (default 100 count))
  | PostOrderMarket order_request =>
      Some ("place_market_order", place_market_order_body order_request)
  | PostOrderLimit order_request =>
      Some ("place_limit_order", place_limit_order_body order_request)
  | DeleteOrder order_id => Some ("cancel_order", cancel_order_body order_id)
  | PostPositionClose instrument units =>
      Some ("close_position", close_position_body instrument (default "ALL" units))
  end.

(** The answer to an [HTTPException]. *)
Definition http_error (status_code : Z) (detail : string) : response :=
  {| status := status_code; content := PDict [("detail", PStr detail)] |}.

(** The requests sent to the broker while [rq] was served from [w]. *)
Definition sent (rq : request) (w : world) (rs : list endpoint) : Prop :=
  calls (snd (app rq w)) = (calls w ++ rs)%list.

(** The order data [add_optional] returns. *)
Definition with_optional (order_request : dict) (field key : string)
           (order_data : dict) : dict :=
  if truthy (dict_get order_request field) then
    dict_set_in "order" key
      (PDict [("price", PStr (py_str (dict_get order_request field)))]) order_data
  else order_data.

(** An optional field of the request is forwarded under [key] of the
    order exactly when it is present and truthy, as a price string. *)
Definition forwarded_if_truthy (order_request : dict) (field key : string)
           (order : dict) : Prop :=
  (dict_mem field order_request = false -> dict_lookup key order = None)
  /\ (truthy (dict_get order_request field) = false -> dict_lookup key order = None)
  /\ (truthy (dict_get order_request field) = true ->
      dict_lookup key order =
        Some (PDict [("price", PStr (py_str (dict_get order_request field)))])).

(** A computation that leaves the world as it found it. *)
Definition silent {A} (m : M A) : Prop := forall w, snd (m w) = w.

(** What a [try] block does with the broker: it raises before reaching
    it and leaves the world untouched, or it sends exactly one request
    and raises whatever the broker raises on it. *)
Definition one_request (body : M pyval) : Prop :=
  forall w,
    (exists e, body w = (Raise e, w))
    \/ (exists r, snd (body w) = add_call r w
                  /\ forall e, oanda_client r = Raise e -> fst (body w) = Raise e).

(** The order data of a market order, before the optional fields. *)
Definition market_order (order_request : dict) : dict :=
  [("type", PStr "MARKET");
   ("instrument", dict_get order_request "instrument");
   ("units", PStr (py_str (dict_get order_request "units")))].

(** The order data of a limit order, before the optional fields. *)
Definition limit_order (order_request : dict) : dict :=
  [("type", PStr "LIMIT");
   ("instrument", dict_get order_request "instrument");
   ("units", PStr (py_str (dict_get order_request "units")));
   ("price", PStr (py_str (dict_get order_request "price")))].

(** The order data once both optional fields have been considered. *)
Definition with_optionals (order_request : dict) (order : dict) : dict :=
  with_optional order_request "take_profit" "takeProfitOnFill"
    (with_optional order_request "stop_loss" "stopLossOnFill"
       [("order", PDict order)]).

(** The order inside the data sent, once the optional fields are in. *)
Definition final_order (order_request : dict) (order : dict) : dict :=
  let price_of field :=
    PDict [("price", PStr (py_str (dict_get order_request field)))] in
  let order1 :=
    if truthy (dict_get order_request "stop_loss")
    then dict_set "stopLossOnFill" (price_of "stop_loss") order else order in
  if truthy (dict_get order_request "take_profit")
  then dict_set "takeProfitOnFill" (price_of "take_profit") order1 else order1.

(** The [price] entry of the best quote on one side, if it has one. *)
Definition quote_of (price_data : pyval) (side : string) : outcome (option pyval) :=
  match get price_data side (PList [PDict []]) with
  | Return quotes =>
      match getitem0 quotes with
      | Return (PDict entries) => Return (dict_lookup "price" entries)
      | Return best =>
          AttributeError (repr_str (type_name best) ++ " object has no attribute 'get'")
      | Raise e => Raise e
      end
  | Raise e => Raise e
  end.

(** [|x - num/den| < 1/tol], computed exactly. *)
Definition float_near (x : spec_float) (num den tol : Z) : bool :=
  match x with
  | S754_zero _ => Z.abs num * tol <? den
  | S754_finite s m e =>
      let xm := if s then Z.neg m else Z.pos m in
      if 0 <=? e then Z.abs (xm * 2 ^ e * den - num) * tol <? den
      else Z.abs (xm * den - num * 2 ^ (- e)) * tol <? den * 2 ^ (- e)
  | _ => false
  end.

(** A pricing answer of the broker with one quote. *)
Definition pricing_reply (instrument bid ask time : string) : pyval :=
  PDict [("time", PStr time);
         ("prices",
          PList [PDict [("type", PStr "PRICE");
                        ("time", PStr time);
                        ("bids", PList [PDict [("price", PStr bid);
                                               ("liquidity", PInt 10000000)]]);
                        ("asks", PList [PDict [("price", PStr ask);
                                               ("liquidity", PInt 10000000)]]);
                        ("instrument", PStr instrument)]])].

(** ** Sample configuration, brokers and world *)

Definition sample_account : string := "101-004-1234567-001".

Definition sample_now : string := "2024-01-02T03:04:05.678901".

(** [str(e)] of an [HTTPException] as Starlette defines it:
    [f"{status_code}: {detail}"]. *)
Definition starlette_str (status_code : Z) (detail : string) : string :=
  string_of_Z status_code ++ ": " ++ detail.

(** Nothing sent, nothing logged. *)
Definition idle : world := {| calls := []; logged := [] |}.

(** A broker that cannot be reached. *)
Definition broker_down (r : endpoint) : outcome pyval :=
  Raise (PyError "ConnectionError" "Connection refused").

(** A broker that rejects every request. *)
Definition broker_rejecting (r : endpoint) : outcome pyval :=
  Raise (V20Error 401 "Insufficient authorization to perform request.").

(** A broker that answers every request with an empty object. *)
Definition broker_accepting (r : endpoint) : outcome pyval :=
  Return (PDict []).

(** A broker with no price rows. *)
Definition broker_no_prices (r : endpoint) : outcome pyval :=
  Return (PDict [("prices", PList [])]).

(** A broker quoting EUR_USD at 1.1000 / 1.1002. *)
Definition broker_quoting (r : endpoint) : outcome pyval :=
  Return (pricing_reply "EUR_USD" "1.1000" "1.1002" "2024-01-02T03:04:05.000000000Z").

(** The float 1.095. *)
Definition float_1_095 : spec_float := S754_finite false 4931441591970693 (-52).

(** A market order with a numeric [units], a float [stop_loss] and a
    [take_profit] of 0. *)
Definition sample_order : dict :=
  [("instrument", PStr "EUR_USD");
   ("units", PInt 100);
   ("stop_loss", PFloat float_1_095);
   ("take_profit", PInt 0)].

(** ** Further definitions: what is sent, kept and logged *)

(** The fields [get_account_info] reads from the broker's account, in the
    order it reads them. *)
Definition account_fields : list string :=
  ["id"; "currency"; "balance"; "NAV"; "unrealizedPL"; "marginUsed";
   "marginAvailable"; "marginRate"; "openTradeCount"; "openPositionCount";
   "pendingOrderCount"].



(** The keys an order sent to the broker may have. *)
Definition market_order_keys : list string :=
  ["type"; "instrument"; "units"; "stopLossOnFill"; "takeProfitOnFill"].

Definition limit_order_keys : list string :=
  ["type"; "instrument"; "units"; "price"; "stopLossOnFill"; "takeProfitOnFill"].

(** ** Start-up *)

Inductive level : Type := ERROR | INFO.

(** The module globals the handlers use, once start-up has succeeded. *)
Record settings (client : Type) : Type :=
  { account_id : string; environment : string; client_handle : client }.
Arguments account_id {client} _.
Arguments environment {client} _.
Arguments client_handle {client} _.

(** [not os.getenv(name)]: unset or empty. *)
Definition unset_or_empty (value : option string) : bool :=
  match value with
  | None => true
  | Some s => String.eqb s ""
  end.

(** The module's start-up: reads the credentials with [getenv], refuses to
    start without them, and builds the client with [API], the broker
    library's constructor.  Returns the globals, or raises, and the lines
    logged with their levels. *)
Definition startup {client : Type} (getenv : string -> option string)
           (API : string -> string -> outcome client)
  : outcome (settings client) * list (level * string) :=
  let OANDA_API_KEY := getenv "OANDA_API_KEY" in
  let OANDA_ACCOUNT_ID := getenv "OANDA_ACCOUNT_ID" in
  let OANDA_ENVIRONMENT := default "practice" (getenv "OANDA_ENVIRONMENT") in
  if unset_or_empty OANDA_API_KEY || unset_or_empty OANDA_ACCOUNT_ID then
    (ValueError "Oanda API credentials not found in environment variables.",
     [(ERROR, "Missing Oanda API credentials")])
  else
    match API (default "" OANDA_API_KEY) OANDA_ENVIRONMENT with
    | Return oanda_client =>
        (Return {| account_id := default "" OANDA_ACCOUNT_ID;
                   environment := OANDA_ENVIRONMENT;
                   client_handle := oanda_client |},
         [(INFO, "Oanda client initialized for " ++ OANDA_ENVIRONMENT ++ " environment")])
    | Raise e =>
        (Raise e, [(ERROR, "Failed to initialize Oanda client: " ++ exn_str e)])
    end.

(** [int(os.getenv("PORT", 8000))] *)
Definition port (getenv : string -> option string) : outcome Z :=
  match getenv "PORT" with
  | Some s => py_int s
  | None => Return 8000
  end.

(** ** Further samples *)



(** An account without its [NAV]. *)
Definition broker_with_partial_account (r : endpoint) : outcome pyval :=
  Return (PDict [("account", PDict [("id", PStr "101-004-1234567-001");
                                    ("currency", PStr "USD");
                                    ("balance", PStr "100000.0000")])]).



(** A broker whose first price row has an empty list of bids. *)
Definition broker_without_bids (r : endpoint) : outcome pyval :=
  Return (PDict [("prices",
                  PList [PDict [("bids", PList []);
                                ("asks", PList [PDict [("price", PStr "1.1002")]])]])]).

(** A broker whose best bid carries no price. *)
Definition broker_without_bid_price (r : endpoint) : outcome pyval :=
  Return (PDict [("prices",
                  PList [PDict [("bids", PList [PDict [("liquidity", PInt 10000000)]]);
                                ("asks", PList [PDict [("price", PStr "1.1002")]]);
                                ("time", PStr "2024-01-02T03:04:05.000000000Z")]])]).

(** An order with keys the gateway does not know. *)
Definition sample_order_with_extras : dict :=
  [("instrument", PStr "EUR_USD");
   ("units", PStr "100");
   ("price", PStr "1.0950");
   ("timeInForce", PStr "FOK");
   ("trailingStopLossOnFill", PDict [("distance", PStr "0.0050")])].

(** Environments of the process. *)
Definition env_complete (name : string) : option string :=
  if String.eqb name "OANDA_API_KEY" then Some "secret-token"
  else if String.eqb name "OANDA_ACCOUNT_ID" then Some "101-004-1234567-001"
  else None.

Definition env_empty_key (name : string) : option string :=
  if String.eqb name "OANDA_API_KEY" then Some ""
  else if String.eqb name "OANDA_ACCOUNT_ID" then Some "101-004-1234567-001"
  else None.

Definition env_empty_port (name : string) : option string :=
  if String.eqb name "PORT" then Some "" else None.

(** A constructor that accepts the two trading environments. *)
Definition sample_API (access_token environment : string) : outcome string :=
  if String.eqb environment "practice" || String.eqb environment "live"
  then Return ("client:" ++ environment)
  else Raise (PyError "KeyError" ("'Unknown environment: " ++ environment ++ "'")).

(* ================================================================ *)
(** * Part 4: properties *)
(* ================================================================ *)

(** ** The built-ins at sample values *)

Example py_int_signed_and_spaced :
  py_int " +12 " = Return 12 /\ py_int "-0500" = Return (-500)
  /\ py_int "1_000" = Return 1000 /\ py_int "0" = Return 0.
Proof. repeat split; reflexivity. Qed.

Example py_int_rejects :
  py_int "5.0" = ValueError "invalid literal for int() with base 10: '5.0'"
  /\ py_int "" = ValueError "invalid literal for int() with base 10: ''"
  /\ py_int "1__0" = ValueError "invalid literal for int() with base 10: '1__0'"
  /\ py_int "all" = ValueError "invalid literal for int() with base 10: 'all'".
Proof. repeat split; reflexivity. Qed.

Example float_of_string_forms :
  option_map repr_float (float_of_string "1.1000") = Some "1.1"
  /\ option_map repr_float (float_of_string "-.5e-3") = Some "-0.0005"
  /\ option_map repr_float (float_of_string "1_0.5") = Some "10.5"
  /\ option_map repr_float (float_of_string " 1e400 ") = Some "inf"
  /\ option_map repr_float (float_of_string "Infinity") = Some "inf"
  /\ float_of_string "N/A" = None.
Proof. repeat split; vm_compute; reflexivity. Qed.

Example repr_float_forms :
  repr_float (S754_finite false 7205759403792794 (-56)) = "0.1"
  /\ repr_float (S754_finite false 6755399441055744 (-52)) = "1.5"
  /\ repr_float (S754_finite false 5000000000000000 1) = "1e+16"
  /\ repr_float (S754_finite false 1 (-1074)) = "5e-324"
  /\ repr_float float_1_095 = "1.095".
Proof. repeat split; vm_compute; reflexivity. Qed.

Example py_str_forms :
  py_str (PStr "EUR_USD") = "EUR_USD"
  /\ py_str (PInt (-5)) = "-5"
  /\ py_str (PBool true) = "True"
  /\ py_str PNone = "None"
  /\ py_str (PList [PInt 1; PStr "a"; PNone; PBool true;
                    PFloat (S754_finite false 6755399441055744 (-52));
                    PDict [("k", PList [])]])
     = "[1, 'a', None, True, 1.5, {'k': []}]".
Proof. repeat split; vm_compute; reflexivity. Qed.

Example truthy_forms :
  truthy PNone = false /\ truthy (PInt 0) = false /\ truthy (PStr "") = false
  /\ truthy (PFloat (S754_zero true)) = false /\ truthy (PList []) = false
  /\ truthy (PDict []) = false /\ truthy (PBool false) = false
  /\ truthy (PStr "0") = true /\ truthy (PFloat S754_nan) = true
  /\ truthy (PList [PInt 0]) = true.
Proof. repeat split; reflexivity. Qed.

(** ** Running a handler *)

Lemma guarded_run (fn : string) (body : M pyval) (w : world) :
  guarded fn body w =
  match body w with
  | (Return v, w') => (Return v, w')
  | (Raise (V20Error code msg), w') =>
      (Raise (HTTPException 400 ("Oanda API error: " ++ msg)),
       add_log ("Oanda API error in " ++ fn ++ ": " ++ msg) w')
  | (Raise e, w') =>
      (Raise (HTTPException 500 ("Internal error: " ++ exn_str e)),
       add_log ("Unexpected error in " ++ fn ++ ": " ++ exn_str e) w')
  end.
Proof.
  unfold guarded, catch.
  destruct (body w) as [[v | e] w']; [reflexivity |].
  destruct e; reflexivity.
Qed.

Lemma route_try_block (rq : request) (fn : string) (body : M pyval) :
  try_block rq = Some (fn, body) -> route rq = guarded fn body.
Proof.
  destruct rq; simpl; intros H; inversion H; reflexivity.
Qed.

Lemma calls_add_log (line : string) (w : world) :
  calls (add_log line w) = calls w.
Proof. reflexivity. Qed.

Lemma calls_add_call (r : endpoint) (w : world) :
  calls (add_call r w) = (calls w ++ [r])%list.
Proof. reflexivity. Qed.

Lemma app_nil_inv {A} (l l' : list A) : l = (l ++ l')%list -> l' = [].
Proof.
  intros H. apply (app_inv_head l). rewrite app_nil_r. symmetry. exact H.
Qed.

Lemma app_calls (rq : request) (w : world) :
  calls (snd (app rq w)) = calls (snd (route rq w)).
Proof.
  unfold app, global_exception_handler.
  destruct (route rq w) as [[v | e] w'];
    [destruct (json_compliant v) | destruct e]; reflexivity.
Qed.

Lemma guarded_calls (fn : string) (body : M pyval) (w : world) :
  calls (snd (guarded fn body w)) = calls (snd (body w)).
Proof.
  rewrite guarded_run.
  destruct (body w) as [[v | e] w']; [reflexivity |].
  destruct e; reflexivity.
Qed.

(** Running a computation whose next step is the broker request [r]. *)
Lemma bind_request {B} (r : endpoint) (k : pyval -> M B) (w : world) :
  bind (request_broker r) k w =
  match oanda_client r with
  | Return v => k v (add_call r w)
  | Raise e => (Raise e, add_call r w)
  end.
Proof. unfold bind, request_broker. destruct (oanda_client r); reflexivity. Qed.

Lemma bind_lift {A B} (o : outcome A) (k : A -> M B) (w : world) :
  bind (lift o) k w =
  match o with
  | Return a => k a w
  | Raise e => (Raise e, w)
  end.
Proof. unfold bind, lift. destruct o; reflexivity. Qed.

Lemma silent_ret {A} (a : A) : silent (ret a).
Proof. intros w. reflexivity. Qed.

Lemma silent_raise {A} (e : exn) : silent (@raise A e).
Proof. intros w. reflexivity. Qed.

Lemma silent_lift {A} (o : outcome A) : silent (lift o).
Proof. intros w. reflexivity. Qed.

Lemma silent_bind {A B} (m : M A) (k : A -> M B) :
  silent m -> (forall a, silent (k a)) -> silent (bind m k).
Proof.
  intros Hm Hk w. unfold bind. specialize (Hm w).
  destruct (m w) as [[a | e] w']; simpl in Hm; subst w'.
  - apply Hk.
  - reflexivity.
Qed.

Lemma silent_if {A} (b : bool) (m1 m2 : M A) :
  silent m1 -> silent m2 -> silent (if b then m1 else m2).
Proof. destruct b; auto. Qed.

Create HintDb silent discriminated.
#[local] Hint Resolve silent_ret silent_raise silent_lift silent_if : silent.
#[local] Hint Extern 2 (silent (bind _ _)) => apply silent_bind; [| intros ?] : silent.

(** A broker request followed by a silent continuation sends exactly
    that request, and raises what the broker raises. *)
Lemma request_then_silent (r : endpoint) (k : pyval -> M pyval) (w : world) :
  (forall v, silent (k v)) ->
  snd (bind (request_broker r) k w) = add_call r w
  /\ (forall e, oanda_client r = Raise e ->
                fst (bind (request_broker r) k w) = Raise e).
Proof.
  intros Hk. rewrite bind_request.
  destruct (oanda_client r) as [v | e0].
  - split; [apply Hk | discriminate].
  - split; [reflexivity | intros e [= ->]; reflexivity].
Qed.

Lemma one_request_base (r : endpoint) (k : pyval -> M pyval) :
  (forall v, silent (k v)) -> one_request (bind (request_broker r) k).
Proof.
  intros Hk w. right. exists r. apply request_then_silent. exact Hk.
Qed.

Lemma one_request_bind {A} (m : M A) (k : A -> M pyval) :
  silent m -> (forall a, one_request (k a)) -> one_request (bind m k).
Proof.
  intros Hm Hk w. unfold bind. specialize (Hm w).
  destruct (m w) as [[a | e] w'] eqn:E; simpl in Hm; subst w'.
  - apply Hk.
  - left. exists e. reflexivity.
Qed.

Lemma silent_require_fields (fields : list string) (d : dict) :
  silent (require_fields fields d).
Proof.
  induction fields as [| f fs IH]; simpl.
  - apply silent_ret.
  - destruct (dict_mem f d); [exact IH | apply silent_raise].
Qed.

Lemma silent_add_optional (d : dict) (field key : string) (data : dict) :
  silent (add_optional d field key data).
Proof. unfold add_optional. auto with silent. Qed.

Lemma silent_quoted_price (price_data : pyval) (side : string) (default : pyval) :
  silent (quoted_price price_data side default).
Proof. unfold quoted_price. auto 10 with silent. Qed.

Lemma silent_close_data (units : string) : silent (close_data units).
Proof. unfold close_data. auto 10 with silent. Qed.

#[local] Hint Resolve silent_require_fields silent_add_optional
  silent_quoted_price silent_close_data : silent.

Ltac one_request_steps :=
  repeat (apply one_request_bind; [solve [auto with silent] | intros ?]);
  apply one_request_base; intros ?; auto 20 with silent.

Lemma try_block_one_request (rq : request) (fn : string) (body : M pyval) :
  try_block rq = Some (fn, body) -> one_request body.
Proof.
  destruct rq; simpl; intros H; inversion H; subst; clear H.
  - unfold get_account_info_body. one_request_steps.
  - unfold get_positions_body. one_request_steps.
  - unfold get_orders_body. one_request_steps.
  - unfold get_current_price_body. one_request_steps.
  - unfold get_historical_data_body. one_request_steps.
  - unfold place_market_order_body. one_request_steps.
  - unfold place_limit_order_body. one_request_steps.
  - unfold cancel_order_body. one_request_steps.
  - unfold close_position_body. one_request_steps.
Qed.

(** The answer of the application in terms of the handler's [try]
    block. *)
Lemma app_try_block (rq : request) (fn : string) (body : M pyval) (w : world) :
  try_block rq = Some (fn, body) ->
  app rq w =
  match body w with
  | (Return v, w') =>
      if json_compliant v then ({| status := 200; content := v |}, w')
      else global_exception_handler
             (PyError "ValueError" "Out of range float values are not JSON compliant") w'
  | (Raise (V20Error code msg), w') =>
      (http_error 400 ("Oanda API error: " ++ msg),
       add_log ("Oanda API error in " ++ fn ++ ": " ++ msg) w')
  | (Raise e, w') =>
      (http_error 500 ("Internal error: " ++ exn_str e),
       add_log ("Unexpected error in " ++ fn ++ ": " ++ exn_str e) w')
  end.
Proof.
  intros H. unfold app. rewrite (route_try_block _ _ _ H), guarded_run.
  destruct (body w) as [[v | e] w']; [reflexivity |].
  destruct e; reflexivity.
Qed.

(** The request a [try] block sent is the one whose failure it raises. *)
Lemma sent_raises (rq : request) (fn : string) (body : M pyval) (w : world)
      (r : endpoint) (e : exn) :
  try_block rq = Some (fn, body) ->
  sent rq w [r] -> oanda_client r = Raise e -> fst (body w) = Raise e.
Proof.
  intros H Hsent Hr. unfold sent in Hsent.
  rewrite app_calls, (route_try_block _ _ _ H), guarded_calls in Hsent.
  destruct (try_block_one_request _ _ _ H w) as [[e0 E] | [r0 [E1 E2]]].
  - rewrite E in Hsent. simpl in Hsent.
    apply app_nil_inv in Hsent. discriminate.
  - rewrite E1, calls_add_call in Hsent.
    apply app_inv_head in Hsent. injection Hsent as ->.
    apply E2. exact Hr.
Qed.

(** C2, as amended: for every endpoint with the common [try]/[except]
    (all that call the broker but GET /health), a [V20Error] raised by
    the broker on the request sent is answered 400 with the broker's
    message in the detail; any other exception raised in the [try] block
    is answered 500 with its text in the detail; and the handler raises
    nothing but [HTTPException], so no exception is left unhandled. *)
Theorem broker_failure_mapping
        (rq : request) (fn : string) (body : M pyval) (w : world) :
  try_block rq = Some (fn, body) ->
  (forall r code msg,
      sent rq w [r] -> oanda_client r = Raise (V20Error code msg) ->
      fst (app rq w) = http_error 400 ("Oanda API error: " ++ msg))
  /\ (forall e,
         fst (body w) = Raise e -> (forall code msg, e <> V20Error code msg) ->
         fst (app rq w) = http_error 500 ("Internal error: " ++ exn_str e))
  /\ (forall r e,
         sent rq w [r] -> oanda_client r = Raise e ->
         (forall code msg, e <> V20Error code msg) ->
         fst (app rq w) = http_error 500 ("Internal error: " ++ exn_str e))
  /\ (forall e, fst (route rq w) = Raise e ->
                exists status_code detail, e = HTTPException status_code detail).
Proof.
  intros H.
  assert (Hother : forall e,
             fst (body w) = Raise e -> (forall code msg, e <> V20Error code msg) ->
             fst (app rq w) = http_error 500 ("Internal error: " ++ exn_str e)).
  { intros e He Hne. rewrite (app_try_block _ _ _ w H).
    destruct (body w) as [[v | e'] w']; simpl in He; [discriminate |].
    injection He as ->.
    destruct e as [s d | c m | cls text]; try reflexivity.
    exfalso. apply (Hne c m). reflexivity. }
  split; [| split; [exact Hother | split]].
  - intros r code msg Hsent Hr.
    pose proof (sent_raises _ _ _ _ _ _ H Hsent Hr) as He.
    rewrite (app_try_block _ _ _ w H).
    destruct (body w) as [[v | e'] w']; simpl in He; [discriminate |].
    injection He as ->. reflexivity.
  - intros r e Hsent Hr Hne. apply Hother; [| exact Hne].
    exact (sent_raises _ _ _ _ _ _ H Hsent Hr).
  - intros e He. rewrite (route_try_block _ _ _ H), guarded_run in He.
    destruct (body w) as [[v | e'] w']; simpl in He; [discriminate |].
    destruct e'; simpl in He; injection He as <-; eauto.
Qed.

(** GET / never reaches the broker. *)
Lemma root_sends_nothing (w : world) : sent GetRoot w [].
Proof. unfold sent. rewrite app_calls, app_nil_r. reflexivity. Qed.

(** Every request but the two probes is served by a handler with the
    common [try]/[except]. *)
Lemma try_block_defined (rq : request) :
  rq = GetRoot \/ rq = GetHealth \/ exists fn body, try_block rq = Some (fn, body).
Proof. destruct rq; simpl; eauto. Qed.

(** ** The probes *)

(** C7: GET /health answers 200 whatever the broker does; when the
    broker probe raises [e], the handler returns (it does not raise) the
    body with status ["unhealthy"] and [str(e)] as the error. *)
Theorem health_check_reports_failure_as_data (w : world) :
  status (fst (app GetHealth w)) = 200
  /\ (forall e,
         oanda_client (AccountDetails OANDA_ACCOUNT_ID) = Raise e ->
         fst (route GetHealth w) =
           Return (PDict [("status", PStr "unhealthy");
                          ("error", PStr (exn_str e));
                          ("oanda_connection", PStr "failed")])
         /\ fst (app GetHealth w) =
              {| status := 200;
                 content := PDict [("status", PStr "unhealthy");
                                   ("error", PStr (exn_str e));
                                   ("oanda_connection", PStr "failed")] |})
  /\ (forall v,
         oanda_client (AccountDetails OANDA_ACCOUNT_ID) = Return v ->
         fst (app GetHealth w) =
           {| status := 200;
              content := PDict [("status", PStr "healthy");
                                ("oanda_connection", PStr "ok");
                                ("account_id", PStr OANDA_ACCOUNT_ID);
                                ("environment", PStr OANDA_ENVIRONMENT)] |}).
Proof.
  unfold app, route, health_check, catch. rewrite bind_request.
  destruct (oanda_client (AccountDetails OANDA_ACCOUNT_ID)) as [v | e]; simpl.
  - split; [reflexivity | split]; [discriminate | reflexivity].
  - split; [reflexivity | split]; [| discriminate].
    intros e' [= <-]. split; reflexivity.
Qed.

(** ** Historical candles *)

Lemma historical_sent (instrument : string) (granularity : option string)
      (count : option Z) (w : world) :
  sent (GetHistorical instrument granularity count) w
       [InstrumentsCandles instrument
          (PDict [("granularity", PStr (default "D" granularity));
                  ("count", PInt (Z.min (default 100 count) 5000))])].
Proof.
  unfold sent. rewrite app_calls. simpl route.
  unfold get_historical_data. rewrite guarded_calls.
  unfold get_historical_data_body.
  match goal with
  | |- context [bind (request_broker ?r) ?k w] =>
      destruct (request_then_silent r k w) as [E _]; [| rewrite E; reflexivity]
  end.
  intros v. auto 10 with silent.
Qed.

(** C6: the broker is asked for [min(count, 5000)] candles, so a count
    of 999999 is forwarded as 5000; an omitted granularity is ["D"] and
    an omitted count is 100. *)
Theorem historical_count_clamped
        (instrument : string) (granularity : option string)
        (count : option Z) (w : world) :
  sent (GetHistorical instrument granularity count) w
       [InstrumentsCandles instrument
          (PDict [("granularity", PStr (default "D" granularity));
                  ("count", PInt (Z.min (default 100 count) 5000))])]
  /\ sent (GetHistorical instrument granularity (Some 999999)) w
          [InstrumentsCandles instrument
             (PDict [("granularity", PStr (default "D" granularity));
                     ("count", PInt 5000)])]
  /\ sent (GetHistorical instrument None None) w
          [InstrumentsCandles instrument
             (PDict [("granularity", PStr "D"); ("count", PInt 100)])].
Proof.
  split; [| split].
  - apply historical_sent.
  - apply (historical_sent instrument granularity (Some 999999) w).
  - apply (historical_sent instrument None None w).
Qed.

(** ** Closing a position *)

Lemma close_data_run (units : string) (w : world) :
  close_data units w =
  (if String.eqb units "ALL" then
     Return [("longUnits", PStr "ALL"); ("shortUnits", PStr "ALL")]
   else
     match py_int units with
     | Return n =>
         if 0 <? n then Return [("longUnits", PStr units)]
         else Return [("shortUnits", PStr (string_of_Z (Z.abs n)))]
     | Raise e => Raise e
     end, w).
Proof.
  unfold close_data.
  destruct (String.eqb units "ALL"); [reflexivity |].
  rewrite bind_lift. destruct (py_int units) as [n | e]; [| reflexivity].
  destruct (0 <? n); [reflexivity |].
  rewrite bind_lift. reflexivity.
Qed.

Lemma close_position_sent (instrument units : string) (data : dict) (w : world) :
  fst (close_data units w) = Return data ->
  sent (PostPositionClose instrument (Some units)) w
       [PositionClose OANDA_ACCOUNT_ID instrument (PDict data)].
Proof.
  intros H. unfold sent. rewrite app_calls. simpl route.
  unfold close_position. rewrite guarded_calls.
  unfold close_position_body, bind at 1.
  pose proof (silent_close_data units w) as Hs.
  destruct (close_data units w) as [[d | e] w']; simpl in H, Hs; [| discriminate].
  injection H as ->. subst w'.
  match goal with
  | |- context [bind (request_broker ?r) ?k w] =>
      destruct (request_then_silent r k w) as [E _]; [| rewrite E; reflexivity]
  end.
  intros v. auto with silent.
Qed.

(** C3: [units == "ALL"] (also when omitted) closes both sides with
    ["ALL"]; a string that [int] reads as a positive number is forwarded
    unchanged as [longUnits], so ["500"] gives [{longUnits: "500"}]; one
    read as a negative number gives [shortUnits] as [str(abs(n))], so
    ["-500"] gives [{shortUnits: "500"}]. *)
Theorem close_position_payload (instrument : string) (w : world) :
  sent (PostPositionClose instrument (Some "ALL")) w
       [PositionClose OANDA_ACCOUNT_ID instrument
          (PDict [("longUnits", PStr "ALL"); ("shortUnits", PStr "ALL")])]
  /\ sent (PostPositionClose instrument None) w
          [PositionClose OANDA_ACCOUNT_ID instrument
             (PDict [("longUnits", PStr "ALL"); ("shortUnits", PStr "ALL")])]
  /\ sent (PostPositionClose instrument (Some "500")) w
          [PositionClose OANDA_ACCOUNT_ID instrument
             (PDict [("longUnits", PStr "500")])]
  /\ sent (PostPositionClose instrument (Some "-500")) w
          [PositionClose OANDA_ACCOUNT_ID instrument
             (PDict [("shortUnits", PStr "500")])]
  /\ (forall units n,
         units <> "ALL" -> py_int units = Return n -> 0 < n ->
         sent (PostPositionClose instrument (Some units)) w
              [PositionClose OANDA_ACCOUNT_ID instrument
                 (PDict [("longUnits", PStr units)])])
  /\ (forall units n,
         units <> "ALL" -> py_int units = Return n -> n < 0 ->
         sent (PostPositionClose instrument (Some units)) w
              [PositionClose OANDA_ACCOUNT_ID instrument
                 (PDict [("shortUnits", PStr (string_of_Z (Z.abs n)))])]).
Proof.
  split; [| split; [| split; [| split; [| split]]]].
  - apply close_position_sent. rewrite close_data_run. reflexivity.
  - apply (close_position_sent instrument "ALL"). rewrite close_data_run. reflexivity.
  - apply close_position_sent. rewrite close_data_run. reflexivity.
  - apply close_position_sent. rewrite close_data_run. reflexivity.
  - intros units n Hne Hn Hpos. apply close_position_sent.
    rewrite close_data_run, Hn.
    apply String.eqb_neq in Hne. rewrite Hne.
    apply Z.ltb_lt in Hpos. rewrite Hpos. reflexivity.
  - intros units n Hne Hn Hneg. apply close_position_sent.
    rewrite close_data_run, Hn.
    apply String.eqb_neq in Hne. rewrite Hne.
    assert (H0 : (0 <? n) = false) by (apply Z.ltb_ge; lia).
    rewrite H0. reflexivity.
Qed.

(** [int] raises nothing but [ValueError]. *)
Lemma py_int_cases (s : string) :
  (exists n, py_int s = Return n)
  \/ (exists text, py_int s = Raise (PyError "ValueError" text)).
Proof.
  unfold py_int, ValueError.
  destruct (read_sign (strip (list_ascii_of_string s))) as [neg l].
  destruct (read_digits l) as [[ds r] |]; [| eauto].
  destruct r as [| c r'].
  - destruct (int_max_str_digits <? Z.of_nat (List.length ds)); eauto.
  - destruct (Ascii.eqb c "_"); [eauto |].
    destruct (int_max_str_digits <? Z.of_nat (List.length ds)); eauto.
Qed.

(** C5, as amended: when [units] is neither ["ALL"] nor a string [int]
    can read, the answer is HTTP 500 (not 400), its detail the text of
    the [ValueError] after ["Internal error: "], and the broker is not
    called. *)
Theorem close_position_unparseable_units
        (instrument units : string) (w : world) :
  units <> "ALL" ->
  (forall n, py_int units <> Return n) ->
  exists text,
    py_int units = Raise (PyError "ValueError" text)
    /\ app (PostPositionClose instrument (Some units)) w =
         (http_error 500 ("Internal error: " ++ text),
          add_log ("Unexpected error in close_position: " ++ text) w)
    /\ sent (PostPositionClose instrument (Some units)) w [].
Proof.
  intros Hne Hint.
  destruct (py_int_cases units) as [[n Hn] | [text Ht]].
  { exfalso. exact (Hint n Hn). }
  exists text. split; [exact Ht |].
  assert (E : app (PostPositionClose instrument (Some units)) w =
              (http_error 500 ("Internal error: " ++ text),
               add_log ("Unexpected error in close_position: " ++ text) w)).
  { rewrite (app_try_block (PostPositionClose instrument (Some units)) _ _ w eq_refl).
    cbn [default]. unfold close_position_body, bind at 1.
    rewrite close_data_run, Ht.
    apply String.eqb_neq in Hne. rewrite Hne. reflexivity. }
  split; [exact E |].
  unfold sent. rewrite E, app_nil_r. reflexivity.
Qed.

(** ** Orders: required fields *)

Lemma require_fields_missing (fields : list string) (d : dict) (w : world) :
  (exists f, In f fields /\ dict_mem f d = false) ->
  exists f,
    In f fields /\ dict_mem f d = false
    /\ require_fields fields d w =
         (Raise (HTTPException 400 ("Missing required field: " ++ f)), w).
Proof.
  induction fields as [| g gs IH]; intros [f [Hin Hf]]; [destruct Hin |].
  simpl. destruct (dict_mem g d) eqn:Eg.
  - destruct Hin as [-> | Hin]; [congruence |].
    destruct IH as [f' [Hin' [Hf' E]]]; [eauto |].
    exists f'. auto.
  - exists g. auto.
Qed.

Lemma require_fields_present (fields : list string) (d : dict) (w : world) :
  (forall f, In f fields -> dict_mem f d = true) ->
  require_fields fields d w = (Return tt, w).
Proof.
  induction fields as [| g gs IH]; intros H; simpl; [reflexivity |].
  rewrite (H g (or_introl eq_refl)). apply IH.
  intros f Hf. apply H. right. exact Hf.
Qed.

(** An order lacking a required field is answered 500, the 400 raised
    for it being caught by the handler's own [except Exception]; the
    broker is not called. *)
Lemma missing_field_general (order_request : dict) (w : world) :
  ((exists f, In f ["instrument"; "units"] /\ dict_mem f order_request = false) ->
   exists f, In f ["instrument"; "units"]
     /\ app (PostOrderMarket order_request) w =
          (http_error 500 ("Internal error: "
             ++ str_HTTPException 400 ("Missing required field: " ++ f)),
           add_log ("Unexpected error in place_market_order: "
             ++ str_HTTPException 400 ("Missing required field: " ++ f)) w))
  /\
  ((exists f, In f ["instrument"; "units"; "price"] /\ dict_mem f order_request = false) ->
   exists f, In f ["instrument"; "units"; "price"]
     /\ app (PostOrderLimit order_request) w =
          (http_error 500 ("Internal error: "
             ++ str_HTTPException 400 ("Missing required field: " ++ f)),
           add_log ("Unexpected error in place_limit_order: "
             ++ str_HTTPException 400 ("Missing required field: " ++ f)) w)).
Proof.
  split; intros H;
    destruct (require_fields_missing _ _ w H) as [f [Hin [_ E]]];
    exists f; (split; [exact Hin |]).
  - rewrite (app_try_block (PostOrderMarket order_request) _ _ w eq_refl).
    unfold place_market_order_body, bind at 1. rewrite E. reflexivity.
  - rewrite (app_try_block (PostOrderLimit order_request) _ _ w eq_refl).
    unfold place_limit_order_body, bind at 1. rewrite E. reflexivity.
Qed.

(** C1 at failing inputs: a market order without [instrument] and a
    limit order without [price] are answered 500, not 400; the broker is
    not called. *)
Theorem missing_field_answered_500 (w : world) :
  app (PostOrderMarket [("units", PStr "100")]) w =
    (http_error 500 ("Internal error: "
       ++ str_HTTPException 400 "Missing required field: instrument"),
     add_log ("Unexpected error in place_market_order: "
       ++ str_HTTPException 400 "Missing required field: instrument") w)
  /\ app (PostOrderLimit [("instrument", PStr "EUR_USD"); ("units", PStr "100")]) w =
       (http_error 500 ("Internal error: "
          ++ str_HTTPException 400 "Missing required field: price"),
        add_log ("Unexpected error in place_limit_order: "
          ++ str_HTTPException 400 "Missing required field: price") w)
  /\ sent (PostOrderMarket [("units", PStr "100")]) w []
  /\ sent (PostOrderLimit [("instrument", PStr "EUR_USD"); ("units", PStr "100")]) w [].
Proof.
  assert (E1 : app (PostOrderMarket [("units", PStr "100")]) w =
    (http_error 500 ("Internal error: "
       ++ str_HTTPException 400 "Missing required field: instrument"),
     add_log ("Unexpected error in place_market_order: "
       ++ str_HTTPException 400 "Missing required field: instrument") w))
    by reflexivity.
  assert (E2 : app (PostOrderLimit [("instrument", PStr "EUR_USD"); ("units", PStr "100")]) w =
       (http_error 500 ("Internal error: "
          ++ str_HTTPException 400 "Missing required field: price"),
        add_log ("Unexpected error in place_limit_order: "
          ++ str_HTTPException 400 "Missing required field: price") w))
    by reflexivity.
  split; [exact E1 | split; [exact E2 | split]]; unfold sent.
  - rewrite E1, app_nil_r. reflexivity.
  - rewrite E2, app_nil_r. reflexivity.
Qed.

(** ** Prices *)

(** C4 at the failing input: when the broker answers with no price rows
    the 404 raised for it is caught by the handler's own
    [except Exception], and the answer is 500. *)
Theorem empty_prices_answered_500
        (instrument : string) (r_response prices : pyval) (w : world) :
  oanda_client (PricingInfo OANDA_ACCOUNT_ID (PDict [("instruments", PStr instrument)]))
    = Return r_response ->
  get r_response "prices" (PList []) = Return prices ->
  truthy prices = false ->
  app (GetPrice instrument) w =
    (http_error 500 ("Internal error: "
       ++ str_HTTPException 404 ("No price data found for " ++ instrument)),
     add_log ("Unexpected error in get_current_price: "
       ++ str_HTTPException 404 ("No price data found for " ++ instrument))
       (add_call (PricingInfo OANDA_ACCOUNT_ID (PDict [("instruments", PStr instrument)])) w)).
Proof.
  intros Hr Hp Ht.
  rewrite (app_try_block (GetPrice instrument) _ _ w eq_refl).
  unfold get_current_price_body.
  rewrite bind_request, Hr, bind_lift, Hp.
  unfold bind at 1. rewrite Ht. reflexivity.
Qed.

(** ** Orders: the payload *)

Lemma getitem_present (d : dict) (k : string) :
  dict_mem k d = true -> getitem (PDict d) k = Return (dict_get d k).
Proof.
  unfold dict_mem, getitem, dict_get.
  destruct (dict_lookup k d); [reflexivity | discriminate].
Qed.

Lemma truthy_present (d : dict) (k : string) :
  truthy (dict_get d k) = true -> dict_mem k d = true.
Proof.
  unfold dict_get, dict_mem.
  destruct (dict_lookup k d); [reflexivity | discriminate].
Qed.

Lemma add_optional_run (order_request : dict) (field key : string)
      (order_data : dict) (w : world) :
  add_optional order_request field key order_data w =
  (Return (with_optional order_request field key order_data), w).
Proof.
  unfold add_optional, with_optional.
  destruct (truthy (dict_get order_request field)) eqn:E; [| reflexivity].
  rewrite bind_lift, (getitem_present _ _ (truthy_present _ _ E)).
  reflexivity.
Qed.

Lemma market_order_sent (order_request : dict) (w : world) :
  (forall f, In f ["instrument"; "units"] -> dict_mem f order_request = true) ->
  sent (PostOrderMarket order_request) w
       [OrderCreate OANDA_ACCOUNT_ID
          (PDict (with_optionals order_request (market_order order_request)))].
Proof.
  intros H. unfold sent. rewrite app_calls. simpl route.
  unfold place_market_order. rewrite guarded_calls.
  unfold place_market_order_body, bind at 1.
  rewrite (require_fields_present _ _ _ H).
  rewrite bind_lift, getitem_present by (apply H; simpl; auto).
  rewrite bind_lift, getitem_present by (apply H; simpl; auto).
  unfold bind at 1. rewrite add_optional_run.
  unfold bind at 1. rewrite add_optional_run.
  match goal with
  | |- context [bind (request_broker ?r) ?k w] =>
      destruct (request_then_silent r k w) as [E _]; [| rewrite E; reflexivity]
  end.
  intros v. auto with silent.
Qed.

Lemma limit_order_sent (order_request : dict) (w : world) :
  (forall f, In f ["instrument"; "units"; "price"] -> dict_mem f order_request = true) ->
  sent (PostOrderLimit order_request) w
       [OrderCreate OANDA_ACCOUNT_ID
          (PDict (with_optionals order_request (limit_order order_request)))].
Proof.
  intros H. unfold sent. rewrite app_calls. simpl route.
  unfold place_limit_order. rewrite guarded_calls.
  unfold place_limit_order_body, bind at 1.
  rewrite (require_fields_present _ _ _ H).
  rewrite bind_lift, getitem_present by (apply H; simpl; auto).
  rewrite bind_lift, getitem_present by (apply H; simpl; auto).
  rewrite bind_lift, getitem_present by (apply H; simpl; auto).
  unfold bind at 1. rewrite add_optional_run.
  unfold bind at 1. rewrite add_optional_run.
  match goal with
  | |- context [bind (request_broker ?r) ?k w] =>
      destruct (request_then_silent r k w) as [E _]; [| rewrite E; reflexivity]
  end.
  intros v. auto with silent.
Qed.

Lemma with_optionals_order (order_request order : dict) :
  with_optionals order_request order =
  [("order", PDict (final_order order_request order))].
Proof.
  unfold with_optionals, with_optional, final_order, dict_set_in.
  destruct (truthy (dict_get order_request "stop_loss"));
    destruct (truthy (dict_get order_request "take_profit")); reflexivity.
Qed.

Lemma dict_lookup_set_same (k : string) (v : pyval) (d : dict) :
  dict_lookup k (dict_set k v d) = Some v.
Proof.
  induction d as [| [k' v'] d IH]; simpl.
  - rewrite String.eqb_refl. reflexivity.
  - destruct (String.eqb k k') eqn:E; simpl; rewrite ?String.eqb_refl, ?E; auto.
Qed.

Lemma dict_lookup_set_other (k k' : string) (v : pyval) (d : dict) :
  k <> k' -> dict_lookup k (dict_set k' v d) = dict_lookup k d.
Proof.
  intros Hne. induction d as [| [k'' v''] d IH]; simpl.
  - apply String.eqb_neq in Hne. rewrite Hne. reflexivity.
  - destruct (String.eqb k' k'') eqn:E; simpl.
    + apply String.eqb_eq in E. subst k''.
      apply String.eqb_neq in Hne. rewrite Hne. reflexivity.
    + destruct (String.eqb k k''); [reflexivity | exact IH].
Qed.

(** Looking a key of the bare order up in the final one. *)
Lemma final_order_keeps (order_request order : dict) (k : string) :
  k <> "stopLossOnFill" -> k <> "takeProfitOnFill" ->
  dict_lookup k (final_order order_request order) = dict_lookup k order.
Proof.
  intros H1 H2. unfold final_order.
  destruct (truthy (dict_get order_request "stop_loss"));
    destruct (truthy (dict_get order_request "take_profit"));
    rewrite ?(dict_lookup_set_other _ _ _ _ H2),
            ?(dict_lookup_set_other _ _ _ _ H1); reflexivity.
Qed.

Lemma final_order_stop_loss (order_request order : dict) :
  dict_lookup "stopLossOnFill" order = None ->
  forwarded_if_truthy order_request "stop_loss" "stopLossOnFill"
                      (final_order order_request order).
Proof.
  intros Hnone.
  assert (Hne : "stopLossOnFill" <> "takeProfitOnFill") by discriminate.
  assert (Hfalse : truthy (dict_get order_request "stop_loss") = false ->
                   dict_lookup "stopLossOnFill" (final_order order_request order) = None).
  { intros E. unfold final_order. rewrite E.
    destruct (truthy (dict_get order_request "take_profit"));
      rewrite ?(dict_lookup_set_other _ _ _ _ Hne); exact Hnone. }
  split; [| split; [exact Hfalse |]].
  - intros Hmem. apply Hfalse. unfold dict_get, dict_mem in *.
    destruct (dict_lookup "stop_loss" order_request); [discriminate | reflexivity].
  - intros E. unfold final_order. rewrite E.
    destruct (truthy (dict_get order_request "take_profit"));
      rewrite ?(dict_lookup_set_other _ _ _ _ Hne); apply dict_lookup_set_same.
Qed.

Lemma final_order_take_profit (order_request order : dict) :
  dict_lookup "takeProfitOnFill" order = None ->
  forwarded_if_truthy order_request "take_profit" "takeProfitOnFill"
                      (final_order order_request order).
Proof.
  intros Hnone.
  assert (Hne : "takeProfitOnFill" <> "stopLossOnFill") by discriminate.
  assert (Hfalse : truthy (dict_get order_request "take_profit") = false ->
                   dict_lookup "takeProfitOnFill" (final_order order_request order) = None).
  { intros E. unfold final_order. rewrite E.
    destruct (truthy (dict_get order_request "stop_loss"));
      rewrite ?(dict_lookup_set_other _ _ _ _ Hne); exact Hnone. }
  split; [| split; [exact Hfalse |]].
  - intros Hmem. apply Hfalse. unfold dict_get, dict_mem in *.
    destruct (dict_lookup "take_profit" order_request); [discriminate | reflexivity].
  - intros E. unfold final_order. rewrite E. apply dict_lookup_set_same.
Qed.

(** C8: in a market or limit order that reaches the broker, the order
    has no [stopLossOnFill] (resp. [takeProfitOnFill]) key when
    [stop_loss] (resp. [take_profit]) is absent or falsy in the request,
    and has it as [{"price": str(value)}] when it is truthy. *)
Theorem optional_fields_forwarded (order_request : dict) (w : world) :
  ((forall f, In f ["instrument"; "units"] -> dict_mem f order_request = true) ->
   exists order,
     sent (PostOrderMarket order_request) w
          [OrderCreate OANDA_ACCOUNT_ID (PDict [("order", PDict order)])]
     /\ forwarded_if_truthy order_request "stop_loss" "stopLossOnFill" order
     /\ forwarded_if_truthy order_request "take_profit" "takeProfitOnFill" order)
  /\
  ((forall f, In f ["instrument"; "units"; "price"] -> dict_mem f order_request = true) ->
   exists order,
     sent (PostOrderLimit order_request) w
          [OrderCreate OANDA_ACCOUNT_ID (PDict [("order", PDict order)])]
     /\ forwarded_if_truthy order_request "stop_loss" "stopLossOnFill" order
     /\ forwarded_if_truthy order_request "take_profit" "takeProfitOnFill" order).
Proof.
  split; intros H.
  - exists (final_order order_request (market_order order_request)).
    split; [| split].
    + rewrite <- with_optionals_order. apply market_order_sent. exact H.
    + apply final_order_stop_loss. reflexivity.
    + apply final_order_take_profit. reflexivity.
  - exists (final_order order_request (limit_order order_request)).
    split; [| split].
    + rewrite <- with_optionals_order. apply limit_order_sent. exact H.
    + apply final_order_stop_loss. reflexivity.
    + apply final_order_take_profit. reflexivity.
Qed.

Lemma dict_get_lookup (d : dict) (k : string) (v : pyval) :
  dict_lookup k d = Some v -> dict_get d k = v /\ dict_mem k d = true.
Proof. unfold dict_get, dict_mem. intros ->. split; reflexivity. Qed.

(** C10: when the required keys are present, with any JSON values, the
    order sent has [type] fixed to ["MARKET"] (resp. ["LIMIT"]), the
    instrument as given, and [units] (and [price]) as the strings
    [str(units)] (and [str(price)]). *)
Theorem order_values_coerced_to_strings (order_request : dict) (w : world) :
  (forall instrument units,
      dict_lookup "instrument" order_request = Some instrument ->
      dict_lookup "units" order_request = Some units ->
      exists order,
        sent (PostOrderMarket order_request) w
             [OrderCreate OANDA_ACCOUNT_ID (PDict [("order", PDict order)])]
        /\ dict_lookup "type" order = Some (PStr "MARKET")
        /\ dict_lookup "instrument" order = Some instrument
        /\ dict_lookup "units" order = Some (PStr (py_str units)))
  /\
  (forall instrument units price,
      dict_lookup "instrument" order_request = Some instrument ->
      dict_lookup "units" order_request = Some units ->
      dict_lookup "price" order_request = Some price ->
      exists order,
        sent (PostOrderLimit order_request) w
             [OrderCreate OANDA_ACCOUNT_ID (PDict [("order", PDict order)])]
        /\ dict_lookup "type" order = Some (PStr "LIMIT")
        /\ dict_lookup "instrument" order = Some instrument
        /\ dict_lookup "units" order = Some (PStr (py_str units))
        /\ dict_lookup "price" order = Some (PStr (py_str price))).
Proof.
  split.
  - intros instrument units Hi Hu.
    destruct (dict_get_lookup _ _ _ Hi) as [Gi Mi].
    destruct (dict_get_lookup _ _ _ Hu) as [Gu Mu].
    exists (final_order order_request (market_order order_request)).
    split; [| split; [| split]].
    + rewrite <- with_optionals_order. apply market_order_sent.
      intros f [<- | [<- | []]]; assumption.
    + rewrite final_order_keeps by discriminate. reflexivity.
    + rewrite final_order_keeps by discriminate.
      unfold market_order. simpl. rewrite Gi. reflexivity.
    + rewrite final_order_keeps by discriminate.
      unfold market_order. simpl. rewrite Gu. reflexivity.
  - intros instrument units price Hi Hu Hp.
    destruct (dict_get_lookup _ _ _ Hi) as [Gi Mi].
    destruct (dict_get_lookup _ _ _ Hu) as [Gu Mu].
    destruct (dict_get_lookup _ _ _ Hp) as [Gp Mp].
    exists (final_order order_request (limit_order order_request)).
    split; [| split; [| split; [| split]]].
    + rewrite <- with_optionals_order. apply limit_order_sent.
      intros f [<- | [<- | [<- | []]]]; assumption.
    + rewrite final_order_keeps by discriminate. reflexivity.
    + rewrite final_order_keeps by discriminate.
      unfold limit_order. simpl. rewrite Gi. reflexivity.
    + rewrite final_order_keeps by discriminate.
      unfold limit_order. simpl. rewrite Gu. reflexivity.
    + rewrite final_order_keeps by discriminate.
      unfold limit_order. simpl. rewrite Gp. reflexivity.
Qed.

(** ** Prices: the spread *)

Lemma bind_quoted_price {B} (price_data : pyval) (side : string) (d : pyval)
      (k : pyval -> M B) (w : world) :
  bind (quoted_price price_data side d) k w =
  match quote_of price_data side with
  | Return q => k (default d q) w
  | Raise e => (Raise e, w)
  end.
Proof.
  unfold quoted_price, quote_of, bind at 1.
  rewrite bind_lift.
  destruct (get price_data side (PList [PDict []])) as [quotes | e]; [| reflexivity].
  rewrite bind_lift.
  destruct (getitem0 quotes) as [best | e]; [| reflexivity].
  unfold lift.
  destruct best as [| b | n | x | s | items | entries]; try reflexivity.
  simpl. destruct (dict_lookup "price" entries); reflexivity.
Qed.

(** What the [try] block of the price handler returns, when it does. *)
Lemma price_body_returns (instrument : string) (v : pyval) (w w' : world) :
  get_current_price_body instrument w = (Return v, w') ->
  exists price_data bid_q ask_q ask_float bid_float time,
    quote_of price_data "bids" = Return bid_q
    /\ quote_of price_data "asks" = Return ask_q
    /\ py_float (default (PInt 0) ask_q) = Return ask_float
    /\ py_float (default (PInt 0) bid_q) = Return bid_float
    /\ v = success (PDict [("instrument", PStr instrument);
                           ("bid", default (PStr "N/A") bid_q);
                           ("ask", default (PStr "N/A") ask_q);
                           ("spread", PFloat (float_sub ask_float bid_float));
                           ("time", time)]).
Proof.
  unfold get_current_price_body. intros H.
  rewrite bind_request in H.
  destruct (oanda_client _) as [r_response | e]; [| discriminate].
  rewrite bind_lift in H.
  destruct (get r_response "prices" (PList [])) as [prices | e]; [| discriminate].
  unfold bind at 1 in H.
  destruct (negb (truthy prices)); [discriminate |].
  unfold ret at 1 in H.
  rewrite bind_lift in H.
  destruct (getitem0 prices) as [price_data | e]; [| discriminate].
  rewrite bind_quoted_price in H.
  destruct (quote_of price_data "bids") as [bid_q | e] eqn:Eb; [| discriminate].
  rewrite bind_quoted_price in H.
  destruct (quote_of price_data "asks") as [ask_q | e] eqn:Ea; [| discriminate].
  rewrite bind_quoted_price, Ea, bind_lift in H.
  destruct (py_float (default (PInt 0) ask_q)) as [ask_float | e] eqn:Fa; [| discriminate].
  rewrite bind_quoted_price, Eb, bind_lift in H.
  destruct (py_float (default (PInt 0) bid_q)) as [bid_float | e] eqn:Fb; [| discriminate].
  rewrite bind_lift in H.
  destruct (get price_data "time" PNone) as [time | e]; [| discriminate].
  unfold ret in H. injection H as <- _.
  exists price_data, bid_q, ask_q, ask_float, bid_float, time.
  auto.
Qed.

Lemma price_of_quote (q : option pyval) (s : string) (x y : spec_float) :
  default (PStr "N/A") q = PStr s ->
  float_of_string s = Some x ->
  py_float (default (PInt 0) q) = Return y ->
  y = x.
Proof.
  destruct q as [p |]; simpl; intros Hq Hs Hy.
  - subst p. simpl in Hy. rewrite Hs in Hy. injection Hy as ->. reflexivity.
  - injection Hq as <-. vm_compute in Hs. discriminate.
Qed.

(** C9: in every success response of GET /price the spread is the
    float subtraction [float(ask) - float(bid)] of the quoted price
    strings; for bid ["1.1000"] and ask ["1.1002"] it is within [1e-15]
    of 0.0002 without being the float 0.0002: it prints as
    [0.00019999999999997797]. *)
Theorem spread_is_float_subtraction (instrument : string) (w : world) :
  (forall v w',
      app (GetPrice instrument) w = ({| status := 200; content := v |}, w') ->
      exists bid ask spread time,
        v = success (PDict [("instrument", PStr instrument);
                            ("bid", bid);
                            ("ask", ask);
                            ("spread", PFloat spread);
                            ("time", time)])
        /\ forall ask_s bid_s ask_f bid_f,
             ask = PStr ask_s -> bid = PStr bid_s ->
             float_of_string ask_s = Some ask_f ->
             float_of_string bid_s = Some bid_f ->
             spread = float_sub ask_f bid_f)
  /\
  (forall time,
      oanda_client (PricingInfo OANDA_ACCOUNT_ID (PDict [("instruments", PStr instrument)]))
        = Return (pricing_reply instrument "1.1000" "1.1002" time) ->
      exists spread,
        fst (app (GetPrice instrument) w) =
          {| status := 200;
             content := success (PDict [("instrument", PStr instrument);
                                        ("bid", PStr "1.1000");
                                        ("ask", PStr "1.1002");
                                        ("spread", PFloat spread);
                                        ("time", PStr time)]) |}
        /\ float_of_string "1.1002" = Some (S754_finite false 4954860310033020 (-52))
        /\ float_of_string "1.1000" = Some (S754_finite false 4953959590107546 (-52))
        /\ spread = S754_finite false 7378697629483008 (-65)
        /\ float_near spread 2 10000 (10 ^ 15) = true
        /\ float_of_string "0.0002" = Some (S754_finite false 7378697629483821 (-65))
        /\ Some spread <> float_of_string "0.0002"
        /\ repr_float spread = "0.00019999999999997797").
Proof.
  split.
  - intros v w' H.
    rewrite (app_try_block (GetPrice instrument) _ _ w eq_refl) in H.
    destruct (get_current_price_body instrument w) as [[v0 | e] w0] eqn:E.
    + destruct (json_compliant v0).
      2:{ unfold global_exception_handler in H. injection H as H _. discriminate. }
      injection H as -> _.
      destruct (price_body_returns _ _ _ _ E)
        as (price_data & bid_q & ask_q & ask_float & bid_float & time
            & Eb & Ea & Fa & Fb & ->).
      exists (default (PStr "N/A") bid_q), (default (PStr "N/A") ask_q),
        (float_sub ask_float bid_float), time.
      split; [reflexivity |].
      intros ask_s bid_s ask_f bid_f Ha Hb Hfa Hfb.
      rewrite (price_of_quote _ _ _ _ Ha Hfa Fa), (price_of_quote _ _ _ _ Hb Hfb Fb).
      reflexivity.
    + destruct e; unfold http_error in H; injection H as H _; discriminate.
  - intros time Hr.
    exists (S754_finite false 7378697629483008 (-65)).
    split.
    + rewrite (app_try_block (GetPrice instrument) _ _ w eq_refl).
      unfold get_current_price_body. rewrite bind_request, Hr.
      vm_compute. reflexivity.
    + repeat split; try (vm_compute; reflexivity).
      vm_compute. discriminate.
Qed.

(** ** How many requests, and what is logged *)

Lemma try_block_calls (rq : request) (fn : string) (body : M pyval) (w : world) :
  try_block rq = Some (fn, body) ->
  calls (snd (app rq w)) = calls (snd (body w)).
Proof.
  intros H. rewrite app_calls, (route_try_block _ _ _ H), guarded_calls. reflexivity.
Qed.

(** X1: no request makes the gateway call the broker twice: GET / sends
    nothing, GET /health exactly the account probe, every other request at
    most one. *)
Theorem at_most_one_broker_request (rq : request) (w : world) :
  exists rs,
    sent rq w rs
    /\ (List.length rs <= 1)%nat
    /\ (rq = GetRoot -> rs = [])
    /\ (rq = GetHealth -> rs = [AccountDetails OANDA_ACCOUNT_ID]).
Proof.
  destruct (try_block_defined rq) as [-> | [-> | (fn & body & H)]].
  - exists []. split; [apply root_sends_nothing |].
    split; [simpl; lia | split; [reflexivity | discriminate]].
  - exists [AccountDetails OANDA_ACCOUNT_ID]. split.
    + unfold sent. rewrite app_calls. simpl route.
      unfold health_check, catch. rewrite bind_request.
      destruct (oanda_client (AccountDetails OANDA_ACCOUNT_ID)); reflexivity.
    + split; [simpl; lia | split; [discriminate | reflexivity]].
  - assert (Hroot : rq <> GetRoot) by (intros ->; discriminate).
    assert (Hhealth : rq <> GetHealth) by (intros ->; discriminate).
    destruct (try_block_one_request _ _ _ H w) as [[e E] | [r [E _]]].
    + exists []. split.
      * unfold sent. rewrite (try_block_calls _ _ _ w H), E, app_nil_r. reflexivity.
      * split; [simpl; lia | split; intros; [reflexivity | contradiction]].
    + exists [r]. split.
      * unfold sent. rewrite (try_block_calls _ _ _ w H), E. reflexivity.
      * split; [simpl; lia | split; intros; contradiction].
Qed.



(** GET /health logs nothing, not even when the broker fails. *)
Theorem health_check_logs_nothing (w : world) :
  logged (snd (app GetHealth w)) = logged w.
Proof.
  unfold app, route, health_check, catch. rewrite bind_request.
  destruct (oanda_client (AccountDetails OANDA_ACCOUNT_ID)); reflexivity.
Qed.

(** ** Handlers that pass the broker's answer through *)






(** DELETE /order forwards the order id as it is, whatever it is. *)
Theorem cancel_order_sent (order_id : string) (w : world) :
  sent (DeleteOrder order_id) w [OrderCancel OANDA_ACCOUNT_ID order_id].
Proof.
  unfold sent.
  rewrite (try_block_calls (DeleteOrder order_id) _ _ w eq_refl).
  unfold cancel_order_body. rewrite bind_request.
  destruct (oanda_client _); reflexivity.
Qed.

(** ** Listings *)

Lemma json_compliant_list (items : list pyval) :
  json_compliant (PList items) = forallb json_compliant items.
Proof. reflexivity. Qed.



(** ** Closing zero units *)

(** X6: A [units] that [int] reads as zero is neither refused nor taken as
    ["ALL"]: it is sent as a close of ["0"] short units. *)
Theorem close_position_zero_units (instrument units : string) (w : world) :
  units <> "ALL" ->
  py_int units = Return 0 ->
  sent (PostPositionClose instrument (Some units)) w
       [PositionClose OANDA_ACCOUNT_ID instrument (PDict [("shortUnits", PStr "0")])].
Proof.
  intros Hne Hn. apply close_position_sent.
  rewrite close_data_run, Hn.
  apply String.eqb_neq in Hne. rewrite Hne. reflexivity.
Qed.

(** ** The account *)



Ltac account_found f E Hrun Hr Ha w :=
  exists f; split; [simpl; tauto |];
  split; [unfold dict_mem; rewrite E; reflexivity |];
  rewrite (app_try_block GetAccount _ _ w eq_refl);
  unfold get_account_info_body;
  rewrite bind_request, Hr, bind_lift, Ha;
  rewrite (Hrun f E);
  repeat match goal with
         | H : dict_lookup ?k _ = Some ?v |- _ =>
             rewrite (getitem_present _ k)
               by (unfold dict_mem; rewrite H; reflexivity);
             clear H
         end;
  repeat rewrite bind_lift;
  reflexivity.

(** X8: when the broker's account lacks one of the eleven fields, GET
    /account answers 500 and names a missing field, quoted, in the
    detail; no partial account is returned. *)
Theorem account_missing_field (w : world) (r_response : pyval) (account : dict) :
  oanda_client (AccountDetails OANDA_ACCOUNT_ID) = Return r_response ->
  getitem r_response "account" = Return (PDict account) ->
  (exists f, In f account_fields /\ dict_mem f account = false) ->
  exists f,
    In f account_fields /\ dict_mem f account = false
    /\ app GetAccount w =
         (http_error 500 ("Internal error: " ++ repr_str f),
          add_log ("Unexpected error in get_account_info: " ++ repr_str f)
                  (add_call (AccountDetails OANDA_ACCOUNT_ID) w)).
Proof.
  intros Hr Ha Hmissing.
  assert (Hrun : forall k,
             dict_lookup k account = None ->
             getitem (PDict account) k = Raise (PyError "KeyError" (repr_str k))).
  { intros k E. cbn [getitem]. rewrite E. reflexivity. }
  destruct (dict_lookup "id" account) eqn:E1;
    [| account_found "id" E1 Hrun Hr Ha w].
  destruct (dict_lookup "currency" account) eqn:E2;
    [| account_found "currency" E2 Hrun Hr Ha w].
  destruct (dict_lookup "balance" account) eqn:E3;
    [| account_found "balance" E3 Hrun Hr Ha w].
  destruct (dict_lookup "NAV" account) eqn:E4;
    [| account_found "NAV" E4 Hrun Hr Ha w].
  destruct (dict_lookup "unrealizedPL" account) eqn:E5;
    [| account_found "unrealizedPL" E5 Hrun Hr Ha w].
  destruct (dict_lookup "marginUsed" account) eqn:E6;
    [| account_found "marginUsed" E6 Hrun Hr Ha w].
  destruct (dict_lookup "marginAvailable" account) eqn:E7;
    [| account_found "marginAvailable" E7 Hrun Hr Ha w].
  destruct (dict_lookup "marginRate" account) eqn:E8;
    [| account_found "marginRate" E8 Hrun Hr Ha w].
  destruct (dict_lookup "openTradeCount" account) eqn:E9;
    [| account_found "openTradeCount" E9 Hrun Hr Ha w].
  destruct (dict_lookup "openPositionCount" account) eqn:E10;
    [| account_found "openPositionCount" E10 Hrun Hr Ha w].
  destruct (dict_lookup "pendingOrderCount" account) eqn:E11;
    [| account_found "pendingOrderCount" E11 Hrun Hr Ha w].
  exfalso. destruct Hmissing as [f [Hin Hf]].
  unfold dict_mem in Hf. simpl in Hin.
  repeat (destruct Hin as [<- | Hin];
          [match goal with
           | H : dict_lookup ?k account = Some _ |- _ =>
               rewrite H in Hf; discriminate Hf
           end |]).
  exact Hin.
Qed.

(** ** Prices: quotes that are empty or carry no price *)

Lemma quote_of_empty_list (price_data : pyval) (side : string) :
  get price_data side (PList [PDict []]) = Return (PList []) ->
  quote_of price_data side = IndexError "list index out of range".
Proof. unfold quote_of. intros ->. reflexivity. Qed.

Lemma price_body_prelude (instrument : string) (w : world)
      (r_response prices price_data : pyval) :
  oanda_client (PricingInfo OANDA_ACCOUNT_ID (PDict [("instruments", PStr instrument)]))
    = Return r_response ->
  get r_response "prices" (PList []) = Return prices ->
  truthy prices = true ->
  getitem0 prices = Return price_data ->
  get_current_price_body instrument w =
  (bid <- quoted_price price_data "bids" (PStr "N/A") ;;
   ask <- quoted_price price_data "asks" (PStr "N/A") ;;
   ask_price <- quoted_price price_data "asks" (PInt 0) ;;
   ask_float <- lift (py_float ask_price) ;;
   bid_price <- quoted_price price_data "bids" (PInt 0) ;;
   bid_float <- lift (py_float bid_price) ;;
   time <- lift (get price_data "time" PNone) ;;
   ret (success (PDict [("instrument", PStr instrument);
                        ("bid", bid);
                        ("ask", ask);
                        ("spread", PFloat (float_sub ask_float bid_float));
                        ("time", time)])))
    (add_call (PricingInfo OANDA_ACCOUNT_ID (PDict [("instruments", PStr instrument)])) w).
Proof.
  intros Hr Hp Ht Hg. unfold get_current_price_body.
  rewrite bind_request, Hr, bind_lift, Hp.
  unfold bind at 1. rewrite Ht. cbn [negb ret].
  rewrite bind_lift, Hg. reflexivity.
Qed.

(** X9: a price row whose list of bids, or of asks, is empty is answered 500
    with the index error in the detail; the ["N/A"] placeholder is for a
    missing key or price only. *)
Theorem price_empty_quotes_answered_500
        (instrument : string) (w : world) (r_response prices price_data : pyval) :
  oanda_client (PricingInfo OANDA_ACCOUNT_ID (PDict [("instruments", PStr instrument)]))
    = Return r_response ->
  get r_response "prices" (PList []) = Return prices ->
  truthy prices = true ->
  getitem0 prices = Return price_data ->
  (get price_data "bids" (PList [PDict []]) = Return (PList [])
   \/ ((exists q, quote_of price_data "bids" = Return q)
       /\ get price_data "asks" (PList [PDict []]) = Return (PList []))) ->
  fst (app (GetPrice instrument) w) =
    http_error 500 "Internal error: list index out of range".
Proof.
  intros Hr Hp Ht Hg Hempty.
  rewrite (app_try_block (GetPrice instrument) _ _ w eq_refl).
  rewrite (price_body_prelude _ _ _ _ _ Hr Hp Ht Hg).
  rewrite bind_quoted_price.
  destruct Hempty as [Hb | [[q Hq] Ha]].
  - rewrite (quote_of_empty_list _ _ Hb). reflexivity.
  - rewrite Hq, bind_quoted_price, (quote_of_empty_list _ _ Ha). reflexivity.
Qed.

Lemma float_sub_zero (x : spec_float) : float_sub x float_zero = x.
Proof. destruct x as [[] | [] | | s m e]; reflexivity. Qed.

(** X10: when the best bid carries no price, the handler returns ["N/A"] for
    the bid and the spread is the ask itself (the bid counts as 0); when
    the best ask carries none, the spread is [0 - bid]. *)
Theorem price_without_quote_price
        (instrument : string) (w : world) (r_response prices : pyval)
        (entries : dict) (s : string) (x : spec_float) :
  oanda_client (PricingInfo OANDA_ACCOUNT_ID (PDict [("instruments", PStr instrument)]))
    = Return r_response ->
  get r_response "prices" (PList []) = Return prices ->
  truthy prices = true ->
  getitem0 prices = Return (PDict entries) ->
  float_of_string s = Some x ->
  (quote_of (PDict entries) "bids" = Return None ->
   quote_of (PDict entries) "asks" = Return (Some (PStr s)) ->
   fst (route (GetPrice instrument) w) =
     Return (success (PDict [("instrument", PStr instrument);
                             ("bid", PStr "N/A");
                             ("ask", PStr s);
                             ("spread", PFloat x);
                             ("time", dict_get entries "time")])))
  /\
  (quote_of (PDict entries) "asks" = Return None ->
   quote_of (PDict entries) "bids" = Return (Some (PStr s)) ->
   fst (route (GetPrice instrument) w) =
     Return (success (PDict [("instrument", PStr instrument);
                             ("bid", PStr s);
                             ("ask", PStr "N/A");
                             ("spread", PFloat (float_sub float_zero x));
                             ("time", dict_get entries "time")]))).
Proof.
  intros Hr Hp Ht Hg Hs.
  assert (Htime : get (PDict entries) "time" PNone = Return (dict_get entries "time")).
  { unfold get, dict_get. destruct (dict_lookup "time" entries); reflexivity. }
  assert (Hzero : py_float (PInt 0) = Return float_zero) by reflexivity.
  assert (Hfloat : py_float (PStr s) = Return x).
  { cbn [py_float]. rewrite Hs. reflexivity. }
  split; intros Hnone Hsome; simpl route; unfold get_current_price;
    rewrite guarded_run, (price_body_prelude _ _ _ _ _ Hr Hp Ht Hg);
    repeat (first [rewrite bind_quoted_price | rewrite bind_lift];
            rewrite ?Hnone, ?Hsome; cbn [default];
            rewrite ?Hzero, ?Hfloat, ?Htime; cbv beta iota);
    cbn [ret fst]; rewrite ?float_sub_zero; reflexivity.
Qed.

(** ** Orders: nothing else is forwarded *)

Lemma dict_lookup_set_inv (k k' : string) (v x : pyval) (d : dict) :
  dict_lookup k (dict_set k' v d) = Some x -> k = k' \/ dict_lookup k d = Some x.
Proof.
  destruct (String.eqb k k') eqn:E.
  - apply String.eqb_eq in E. auto.
  - apply String.eqb_neq in E. rewrite (dict_lookup_set_other _ _ _ _ E). auto.
Qed.

Lemma final_order_keys (order_request order : dict) (k : string) (x : pyval) :
  dict_lookup k (final_order order_request order) = Some x ->
  k = "stopLossOnFill" \/ k = "takeProfitOnFill" \/ dict_lookup k order = Some x.
Proof.
  unfold final_order.
  destruct (truthy (dict_get order_request "stop_loss"));
    destruct (truthy (dict_get order_request "take_profit")); intros H;
    repeat match goal with
           | H : dict_lookup _ (dict_set _ _ _) = Some _ |- _ =>
               apply dict_lookup_set_inv in H; destruct H as [-> | H]
           end; auto.
Qed.

(** X11: the order sent to the broker has no key but the type, the required
    fields and the two optional ones: any other key of the request body,
    and [price] in a market order, is dropped. *)
Theorem order_has_known_keys_only (order_request : dict) (w : world) :
  ((forall f, In f ["instrument"; "units"] -> dict_mem f order_request = true) ->
   exists order,
     sent (PostOrderMarket order_request) w
          [OrderCreate OANDA_ACCOUNT_ID (PDict [("order", PDict order)])]
     /\ forall k x, dict_lookup k order = Some x -> In k market_order_keys)
  /\
  ((forall f, In f ["instrument"; "units"; "price"] -> dict_mem f order_request = true) ->
   exists order,
     sent (PostOrderLimit order_request) w
          [OrderCreate OANDA_ACCOUNT_ID (PDict [("order", PDict order)])]
     /\ forall k x, dict_lookup k order = Some x -> In k limit_order_keys).
Proof.
  split; intros H.
  - exists (final_order order_request (market_order order_request)). split.
    + rewrite <- with_optionals_order. apply market_order_sent. exact H.
    + intros k x Hk. unfold market_order_keys.
      destruct (final_order_keys _ _ _ _ Hk) as [-> | [-> | Hb]];
        [simpl; tauto | simpl; tauto |].
      unfold market_order in Hb. simpl in Hb.
      destruct (String.eqb k "type") eqn:E1;
        [apply String.eqb_eq in E1; subst; simpl; tauto |].
      destruct (String.eqb k "instrument") eqn:E2;
        [apply String.eqb_eq in E2; subst; simpl; tauto |].
      destruct (String.eqb k "units") eqn:E3;
        [apply String.eqb_eq in E3; subst; simpl; tauto | discriminate].
  - exists (final_order order_request (limit_order order_request)). split.
    + rewrite <- with_optionals_order. apply limit_order_sent. exact H.
    + intros k x Hk. unfold limit_order_keys.
      destruct (final_order_keys _ _ _ _ Hk) as [-> | [-> | Hb]];
        [simpl; tauto | simpl; tauto |].
      unfold limit_order in Hb. simpl in Hb.
      destruct (String.eqb k "type") eqn:E1;
        [apply String.eqb_eq in E1; subst; simpl; tauto |].
      destruct (String.eqb k "instrument") eqn:E2;
        [apply String.eqb_eq in E2; subst; simpl; tauto |].
      destruct (String.eqb k "units") eqn:E3;
        [apply String.eqb_eq in E3; subst; simpl; tauto |].
      destruct (String.eqb k "price") eqn:E4;
        [apply String.eqb_eq in E4; subst; simpl; tauto | discriminate].
Qed.

(** ** Start-up *)

(** X12: without an API key or an account id (unset or empty) the module
    raises [ValueError] and logs one error; the client constructor plays
    no part in it. *)
Theorem startup_requires_credentials
        {client : Type} (getenv : string -> option string)
        (API : string -> string -> outcome client) :
  unset_or_empty (getenv "OANDA_API_KEY") = true
  \/ unset_or_empty (getenv "OANDA_ACCOUNT_ID") = true ->
  startup getenv API =
    (ValueError "Oanda API credentials not found in environment variables.",
     [(ERROR, "Missing Oanda API credentials")]).
Proof.
  intros H. unfold startup.
  destruct (unset_or_empty (getenv "OANDA_API_KEY")); [reflexivity |].
  destruct H as [H | H]; [discriminate | rewrite H; reflexivity].
Qed.

(** X13: what holds once start-up has succeeded: the key and the account id
    were set and not empty, the environment is the one set, ["practice"]
    only when unset, and the client was built from the key and that
    environment. *)
Theorem startup_establishes
        {client : Type} (getenv : string -> option string)
        (API : string -> string -> outcome client) (s : settings client) :
  fst (startup getenv API) = Return s ->
  exists key,
    getenv "OANDA_API_KEY" = Some key /\ key <> ""
    /\ getenv "OANDA_ACCOUNT_ID" = Some (account_id s) /\ account_id s <> ""
    /\ environment s = default "practice" (getenv "OANDA_ENVIRONMENT")
    /\ API key (environment s) = Return (client_handle s)
    /\ snd (startup getenv API) =
         [(INFO, "Oanda client initialized for " ++ environment s ++ " environment")].
Proof.
  unfold startup.
  destruct (getenv "OANDA_API_KEY") as [key |] eqn:Ek; [| discriminate].
  destruct (getenv "OANDA_ACCOUNT_ID") as [account |] eqn:Ea;
    simpl unset_or_empty;
    [| rewrite orb_true_r; discriminate].
  destruct (String.eqb key "") eqn:Hk; [discriminate |].
  destruct (String.eqb account "") eqn:Ha; [discriminate |].
  simpl default at 1 2.
  destruct (API key (default "practice" (getenv "OANDA_ENVIRONMENT"))) as [c | e] eqn:EA;
    simpl; intros H; [| discriminate].
  injection H as <-. simpl.
  exists key. apply String.eqb_neq in Hk. apply String.eqb_neq in Ha.
  repeat split; auto.
  rewrite EA. reflexivity.
Qed.

(** X14: the listen port is 8000 only when [PORT] is unset: a [PORT] that is
    set but that [int] cannot read, the empty string included, raises
    [ValueError] instead of falling back, and any integer is accepted. *)
Theorem port_of_environment (getenv : string -> option string) :
  (getenv "PORT" = None -> port getenv = Return 8000)
  /\ (forall s,
         getenv "PORT" = Some s -> (forall n, py_int s <> Return n) ->
         exists text, port getenv = Raise (PyError "ValueError" text))
  /\ (forall s n,
         getenv "PORT" = Some s -> py_int s = Return n -> port getenv = Return n).
Proof.
  unfold port. split; [intros ->; reflexivity | split].
  - intros s -> Hs. destruct (py_int_cases s) as [[n Hn] | [text Ht]].
    + exfalso. exact (Hs n Hn).
    + exists text. exact Ht.
  - intros s n -> Hn. exact Hn.
Qed.

End Gateway.

(* ================================================================== *)
(** * Part 5: the properties at sample requests *)
(* ================================================================== *)

Abbreviation sample_app broker :=
  (app sample_account "practice" broker sample_now starlette_str).
Abbreviation sample_sent broker :=
  (sent sample_account "practice" broker sample_now starlette_str).

(** C2 at GET /account: a broker rejection is answered 400 with the
    broker's message, a connection failure 500. *)
Lemma broker_failure_mapping_witness :
  fst (sample_app broker_rejecting GetAccount idle) =
    http_error 400 "Oanda API error: Insufficient authorization to perform request."
  /\ fst (sample_app broker_down GetAccount idle) =
       http_error 500 "Internal error: Connection refused".
Proof.
  split.
  - destruct (broker_failure_mapping sample_account "practice" broker_rejecting
                sample_now starlette_str GetAccount _ _ idle eq_refl) as [H _].
    apply (H (AccountDetails sample_account) 401); reflexivity.
  - destruct (broker_failure_mapping sample_account "practice" broker_down
                sample_now starlette_str GetAccount _ _ idle eq_refl)
      as (_ & _ & H & _).
    apply (H (AccountDetails sample_account) (PyError "ConnectionError" "Connection refused"));
      [reflexivity | reflexivity | discriminate].
Defined.

(** C2 as stated fails at GET /health: the endpoint calls the broker, the
    broker raises a [V20Error], and the answer is 200, not 400. *)
Lemma health_check_is_not_mapped :
  sample_sent broker_rejecting GetHealth idle [AccountDetails sample_account]
  /\ broker_rejecting (AccountDetails sample_account) =
       Raise (V20Error 401 "Insufficient authorization to perform request.")
  /\ fst (sample_app broker_rejecting GetHealth idle) =
       {| status := 200;
          content := PDict [("status", PStr "unhealthy");
                            ("error", PStr "Insufficient authorization to perform request.");
                            ("oanda_connection", PStr "failed")] |}
  /\ status (fst (sample_app broker_rejecting GetHealth idle)) <> 400.
Proof.
  split; [reflexivity | split; [reflexivity | split; [reflexivity | discriminate]]].
Qed.

(** C3 at units the handler does not normalise: [" +12 "] is forwarded as
    it is, ["-0500"] as ["500"]. *)
Lemma close_position_payload_witness :
  sample_sent broker_accepting (PostPositionClose "EUR_USD" (Some " +12 ")) idle
              [PositionClose sample_account "EUR_USD" (PDict [("longUnits", PStr " +12 ")])]
  /\ sample_sent broker_accepting (PostPositionClose "EUR_USD" (Some "-0500")) idle
                 [PositionClose sample_account "EUR_USD" (PDict [("shortUnits", PStr "500")])].
Proof.
  destruct (close_position_payload sample_account "practice" broker_accepting
              sample_now starlette_str "EUR_USD" idle)
    as (_ & _ & _ & _ & Hpos & Hneg).
  split.
  - apply (Hpos " +12 " 12); [discriminate | reflexivity | lia].
  - apply (Hneg "-0500" (-500)); [discriminate | reflexivity | lia].
Defined.

(** C4 at a broker with no price rows: 500, the 404 inside the detail. *)
Lemma empty_prices_answered_500_witness :
  sample_app broker_no_prices (GetPrice "EUR_USD") idle =
    (http_error 500 "Internal error: 404: No price data found for EUR_USD",
     {| calls := [PricingInfo sample_account (PDict [("instruments", PStr "EUR_USD")])];
        logged := ["Unexpected error in get_current_price: 404: No price data found for EUR_USD"] |}).
Proof.
  apply (empty_prices_answered_500 sample_account "practice" broker_no_prices
           sample_now starlette_str "EUR_USD" (PDict [("prices", PList [])])
           (PList []) idle); reflexivity.
Defined.

(** C5 as stated fails at units ["abc"]: the answer is 500, not 400. *)
Lemma close_position_bad_units_not_400 :
  py_int "abc" = Raise (PyError "ValueError" "invalid literal for int() with base 10: 'abc'")
  /\ sample_app broker_accepting (PostPositionClose "EUR_USD" (Some "abc")) idle =
       (http_error 500 "Internal error: invalid literal for int() with base 10: 'abc'",
        {| calls := [];
           logged := ["Unexpected error in close_position: invalid literal for int() with base 10: 'abc'"] |})
  /\ status (fst (sample_app broker_accepting (PostPositionClose "EUR_USD" (Some "abc")) idle))
       <> 400.
Proof.
  split; [reflexivity | split; [reflexivity | discriminate]].
Qed.

(** C5, as amended, at units ["abc"]. *)
Lemma close_position_unparseable_units_witness :
  exists text,
    py_int "abc" = Raise (PyError "ValueError" text)
    /\ sample_app broker_accepting (PostPositionClose "EUR_USD" (Some "abc")) idle =
         (http_error 500 ("Internal error: " ++ text),
          add_log ("Unexpected error in close_position: " ++ text) idle)
    /\ sample_sent broker_accepting (PostPositionClose "EUR_USD" (Some "abc")) idle [].
Proof.
  apply (close_position_unparseable_units sample_account "practice" broker_accepting
           sample_now starlette_str "EUR_USD" "abc" idle).
  - discriminate.
  - intros n H. discriminate H.
Defined.

(** C7 at an unreachable broker. *)
Lemma health_check_witness :
  fst (sample_app broker_down GetHealth idle) =
    {| status := 200;
       content := PDict [("status", PStr "unhealthy");
                         ("error", PStr "Connection refused");
                         ("oanda_connection", PStr "failed")] |}.
Proof.
  destruct (health_check_reports_failure_as_data sample_account "practice" broker_down
              sample_now starlette_str idle) as (_ & H & _).
  destruct (H (PyError "ConnectionError" "Connection refused") eq_refl) as [_ E].
  exact E.
Defined.

(** The payload the sample order reaches the broker with: the stop loss as
    a price string, no take profit. *)
Example sample_order_payload :
  sample_sent broker_accepting (PostOrderMarket sample_order) idle
    [OrderCreate sample_account
       (PDict [("order",
                PDict [("type", PStr "MARKET");
                       ("instrument", PStr "EUR_USD");
                       ("units", PStr "100");
                       ("stopLossOnFill", PDict [("price", PStr "1.095")])])])].
Proof. vm_compute. reflexivity. Qed.

(** C8 at the sample order. *)
Lemma optional_fields_forwarded_witness :
  exists order,
    sample_sent broker_accepting (PostOrderMarket sample_order) idle
                [OrderCreate sample_account (PDict [("order", PDict order)])]
    /\ forwarded_if_truthy sample_order "stop_loss" "stopLossOnFill" order
    /\ forwarded_if_truthy sample_order "take_profit" "takeProfitOnFill" order.
Proof.
  destruct (optional_fields_forwarded sample_account "practice" broker_accepting
              sample_now starlette_str sample_order idle) as [H _].
  apply H. intros f [<- | [<- | []]]; reflexivity.
Defined.

(** C9 at a quote of 1.1000 / 1.1002. *)
Lemma spread_witness :
  exists spread,
    fst (sample_app broker_quoting (GetPrice "EUR_USD") idle) =
      {| status := 200;
         content := success (PDict [("instrument", PStr "EUR_USD");
                                    ("bid", PStr "1.1000");
                                    ("ask", PStr "1.1002");
                                    ("spread", PFloat spread);
                                    ("time", PStr "2024-01-02T03:04:05.000000000Z")]) |}
    /\ float_of_string "1.1002" = Some (S754_finite false 4954860310033020 (-52))
    /\ float_of_string "1.1000" = Some (S754_finite false 4953959590107546 (-52))
    /\ spread = S754_finite false 7378697629483008 (-65)
    /\ float_near spread 2 10000 (10 ^ 15) = true
    /\ float_of_string "0.0002" = Some (S754_finite false 7378697629483821 (-65))
    /\ Some spread <> float_of_string "0.0002"
    /\ repr_float spread = "0.00019999999999997797".
Proof.
  destruct (spread_is_float_subtraction sample_account "practice" broker_quoting
              sample_now starlette_str "EUR_USD" idle) as [_ H].
  apply (H "2024-01-02T03:04:05.000000000Z"). reflexivity.
Defined.

(** When the best bid has no [price], the bid is reported as ["N/A"] and
    taken as 0 in the spread. *)
Example spread_without_bid_price :
  fst (sample_app
         (fun _ => Return (PDict [("prices",
                     PList [PDict [("bids", PList [PDict []]);
                                   ("asks", PList [PDict [("price", PStr "1.1002")]])]])]))
         (GetPrice "EUR_USD") idle) =
    {| status := 200;
       content := success (PDict [("instrument", PStr "EUR_USD");
                                  ("bid", PStr "N/A");
                                  ("ask", PStr "1.1002");
                                  ("spread", PFloat (S754_finite false 4954860310033020 (-52)));
                                  ("time", PNone)]) |}.
Proof. vm_compute. reflexivity. Qed.

(** C10 at the sample order: the number 100 is sent as the string ["100"]. *)
Lemma order_values_coerced_witness :
  exists order,
    sample_sent broker_accepting (PostOrderMarket sample_order) idle
                [OrderCreate sample_account (PDict [("order", PDict order)])]
    /\ dict_lookup "type" order = Some (PStr "MARKET")
    /\ dict_lookup "instrument" order = Some (PStr "EUR_USD")
    /\ dict_lookup "units" order = Some (PStr (py_str (PInt 100))).
Proof.
  destruct (order_values_coerced_to_strings sample_account "practice" broker_accepting
              sample_now starlette_str sample_order idle) as [H _].
  apply (H (PStr "EUR_USD") (PInt 100)); reflexivity.
Defined.

(** ** Further properties at sample requests *)





(** ["0"] and ["-0"] both close 0 short units. *)
Lemma close_position_zero_units_witness :
  sample_sent broker_accepting (PostPositionClose "EUR_USD" (Some "0")) idle
              [PositionClose sample_account "EUR_USD" (PDict [("shortUnits", PStr "0")])]
  /\ sample_sent broker_accepting (PostPositionClose "EUR_USD" (Some "-0")) idle
                 [PositionClose sample_account "EUR_USD" (PDict [("shortUnits", PStr "0")])].
Proof.
  split.
  - apply (close_position_zero_units sample_account "practice" broker_accepting
             sample_now starlette_str "EUR_USD" "0" idle);
      [discriminate | reflexivity].
  - apply (close_position_zero_units sample_account "practice" broker_accepting
             sample_now starlette_str "EUR_USD" "-0" idle);
      [discriminate | reflexivity].
Defined.


(** An account without its NAV is answered 500. *)
Lemma account_missing_field_witness :
  exists f,
    In f account_fields
    /\ dict_mem f [("id", PStr "101-004-1234567-001");
                   ("currency", PStr "USD");
                   ("balance", PStr "100000.0000")] = false
    /\ sample_app broker_with_partial_account GetAccount idle =
         (http_error 500 ("Internal error: " ++ repr_str f),
          add_log ("Unexpected error in get_account_info: " ++ repr_str f)
                  (add_call (AccountDetails sample_account) idle)).
Proof.
  apply (account_missing_field sample_account "practice" broker_with_partial_account
           sample_now starlette_str idle
           (PDict [("account", PDict [("id", PStr "101-004-1234567-001");
                                      ("currency", PStr "USD");
                                      ("balance", PStr "100000.0000")])]));
    try reflexivity.
  exists "NAV". split; [simpl; tauto | reflexivity].
Defined.

(** The field named for the account without NAV is ['NAV']. *)
Example account_without_nav :
  fst (sample_app broker_with_partial_account GetAccount idle) =
    http_error 500 "Internal error: 'NAV'".
Proof. vm_compute. reflexivity. Qed.

(** An empty list of bids is answered 500. *)
Lemma price_empty_quotes_witness :
  fst (sample_app broker_without_bids (GetPrice "EUR_USD") idle) =
    http_error 500 "Internal error: list index out of range".
Proof.
  apply (price_empty_quotes_answered_500 sample_account "practice" broker_without_bids
           sample_now starlette_str "EUR_USD" idle
           (PDict [("prices",
                    PList [PDict [("bids", PList []);
                                  ("asks", PList [PDict [("price", PStr "1.1002")]])]])])
           (PList [PDict [("bids", PList []);
                          ("asks", PList [PDict [("price", PStr "1.1002")]])]])
           (PDict [("bids", PList []);
                   ("asks", PList [PDict [("price", PStr "1.1002")]])]));
    try reflexivity.
  left. reflexivity.
Defined.

(** A bid without price: ["N/A"], and the ask as the spread. *)
Lemma price_without_quote_price_witness :
  fst (route sample_account "practice" broker_without_bid_price sample_now starlette_str
             (GetPrice "EUR_USD") idle) =
    Return (success (PDict [("instrument", PStr "EUR_USD");
                            ("bid", PStr "N/A");
                            ("ask", PStr "1.1002");
                            ("spread", PFloat (S754_finite false 4954860310033020 (-52)));
                            ("time", PStr "2024-01-02T03:04:05.000000000Z")])).
Proof.
  destruct (price_without_quote_price sample_account "practice" broker_without_bid_price
              sample_now starlette_str "EUR_USD" idle
              (PDict [("prices",
                  PList [PDict [("bids", PList [PDict [("liquidity", PInt 10000000)]]);
                                ("asks", PList [PDict [("price", PStr "1.1002")]]);
                                ("time", PStr "2024-01-02T03:04:05.000000000Z")]])])
              (PList [PDict [("bids", PList [PDict [("liquidity", PInt 10000000)]]);
                             ("asks", PList [PDict [("price", PStr "1.1002")]]);
                             ("time", PStr "2024-01-02T03:04:05.000000000Z")]])
              [("bids", PList [PDict [("liquidity", PInt 10000000)]]);
               ("asks", PList [PDict [("price", PStr "1.1002")]]);
               ("time", PStr "2024-01-02T03:04:05.000000000Z")]
              "1.1002" (S754_finite false 4954860310033020 (-52))
              eq_refl eq_refl eq_refl eq_refl eq_refl) as [H _].
  apply H; reflexivity.
Defined.

(** The limit order built from a body with unknown keys. *)
Example sample_order_with_extras_payload :
  sample_sent broker_accepting (PostOrderLimit sample_order_with_extras) idle
    [OrderCreate sample_account
       (PDict [("order",
                PDict [("type", PStr "LIMIT");
                       ("instrument", PStr "EUR_USD");
                       ("units", PStr "100");
                       ("price", PStr "1.0950")])])].
Proof. vm_compute. reflexivity. Qed.

(** Unknown keys of the body are dropped from the order. *)
Lemma order_has_known_keys_only_witness :
  exists order,
    sample_sent broker_accepting (PostOrderLimit sample_order_with_extras) idle
                [OrderCreate sample_account (PDict [("order", PDict order)])]
    /\ forall k x, dict_lookup k order = Some x -> In k limit_order_keys.
Proof.
  destruct (order_has_known_keys_only sample_account "practice" broker_accepting
              sample_now starlette_str sample_order_with_extras idle) as [_ H].
  apply H. intros f [<- | [<- | [<- | []]]]; reflexivity.
Defined.

(** An empty API key stops the start-up. *)
Lemma startup_requires_credentials_witness :
  startup starlette_str env_empty_key sample_API =
    (ValueError "Oanda API credentials not found in environment variables.",
     [(ERROR, "Missing Oanda API credentials")]).
Proof.
  apply (startup_requires_credentials starlette_str env_empty_key sample_API).
  left. reflexivity.
Defined.

(** With both credentials and no environment set, the client is built
    for ["practice"]. *)
Lemma startup_establishes_witness :
  exists key,
    env_complete "OANDA_API_KEY" = Some key /\ key <> ""
    /\ env_complete "OANDA_ACCOUNT_ID" = Some "101-004-1234567-001"
    /\ "101-004-1234567-001" <> ""
    /\ "practice" = default "practice" (env_complete "OANDA_ENVIRONMENT")
    /\ sample_API key "practice" = Return "client:practice"
    /\ snd (startup starlette_str env_complete sample_API) =
         [(INFO, "Oanda client initialized for practice environment")].
Proof.
  apply (startup_establishes starlette_str env_complete sample_API
           {| account_id := "101-004-1234567-001";
              environment := "practice";
              client_handle := "client:practice" |}).
  reflexivity.
Defined.

(** An empty [PORT] raises; it does not mean 8000. *)
Lemma port_of_environment_witness :
  exists text, port env_empty_port = Raise (PyError "ValueError" text).
Proof.
  destruct (port_of_environment env_empty_port) as (_ & H & _).
  apply (H ""); [reflexivity | intros n Hn; discriminate Hn].
Defined.
